(** * ding: a host network-health probe

    A shallow embedding of [ding.py] and the properties of its discovery
    functions, its two checkers, the [DingResult] dataclass and the CLI
    entrypoint.

    The program is a straight-line script around four collaborators
    (netifaces, psutil, subprocess/ping, dnspython).  Their answers are the
    fields of a [World]; what the program does to the outside is a trace of
    [event]s; a Python exception is the [Raise] branch of a [result]. *)

From stdpp Require Import base strings gmap list.

Open Scope Z_scope.
Open Scope string_scope.
Open Scope list_scope.

(** ** Python values the script handles *)

(** [netifaces.AF_INET] *)
Definition AF_INET : Z := 2.
Definition AF_INET6 : Z := 10.

(** The dict returned by [netifaces.gateways()]: under the key ["default"] a
    dict from address family to the pair (gateway address, interface name);
    under each family the list of all known routes. *)
Record Gateways := {
  gw_default : gmap Z (string * string);
  gw_routes : gmap Z (list (string * string * bool));
}.

(** One entry of [psutil.net_if_stats()]. *)
Record snicstats := {
  isup : bool;
  duplex : Z;
  speed : Z;
  mtu : Z;
}.

(** [dns.resolver.Resolver], as far as the script looks into it. *)
Record Resolver := {
  nameservers : list string;
  port : Z;
  search : list string;
}.

(** What the attribute [default_resolver] of a [DingResult] holds: the
    resolver object, or (after [__str__]) the attribute dict of one. *)
Inductive ResolverField :=
| AsObject (r : Resolver)
| AsAttrDict (r : Resolver).

(** The instance dict of a [DingResult]: one entry per dataclass field. *)
Record DingResult := {
  interface_name : string;
  default_gateway : string;
  default_resolver : ResolverField;
  default_gateway_reachable : bool;
  google_reachable : bool;
  default_resolver_reachable : bool;
  google_resolvable : bool;
  good : bool;
}.

(** Values that get formatted with [repr], [pprint] or [pformat]. *)
Inductive pyvalue :=
| PStr (s : string)
| PBool (b : bool)
| PGateways (g : Gateways)
| PIfStats (s : gmap string snicstats)
| PInstanceDict (d : DingResult).

(** A piece of formatted text; [repr] and [pformat] are left unrendered. *)
Inductive piece :=
| Text (s : string)
| Repr (v : pyvalue)
| Pformat (v : pyvalue).

Definition text := list piece.

(** ** Exceptions and results *)

Inductive exn :=
| SystemExit (msg : string)
| KeyError
| IndexError
| AttributeError
| NXDOMAIN
| NoNameservers
| OtherError (name : string).

Inductive result (A : Type) :=
| Ok (a : A)
| Raise (e : exn).
Arguments Ok {A} a.
Arguments Raise {A} e.

(** ** The outside world *)

Inductive Redirect := Inherit | DEVNULL | STDOUT.

(** The arguments of one [subprocess.call]. *)
Record SpawnRequest := {
  args : list string;
  stdout : Redirect;
  stderr : Redirect;
  timeout : option Z;
}.

Record World := {
  (** [netifaces.gateways()] *)
  gateways : Gateways;
  (** [netifaces.ifaddresses(interface)]: family to list of address dicts *)
  ifaddresses : string → result (gmap Z (list (gmap string string)));
  (** [psutil.net_if_stats()] *)
  net_if_stats : gmap string snicstats;
  (** [platform.system()] *)
  platform_system : string;
  (** [subprocess.call(...)]: the exit status of the child, or the exception
      raised when the child cannot be started *)
  subprocess_call : SpawnRequest → result Z;
  (** [dns.resolver.resolve(host)]: an answer (its addresses) or an exception *)
  resolve : string → result (list string);
  (** [dns.resolver.get_default_resolver()] *)
  get_default_resolver : result Resolver;
}.

Inductive event :=
| Print (t : text)
| CallGateways
| CallIfaddresses (interface : string)
| CallNetIfStats
| CallPlatformSystem
| CallSubprocess (req : SpawnRequest)
| CallResolve (host : string)
| CallGetDefaultResolver.

(** ** Computations: a trace of events and a result *)

Definition M (A : Type) : Type := list event * result A.

#[global] Instance M_ret : MRet M := λ A a, ([], Ok a).
#[global] Instance M_bind : MBind M := λ A B f m,
  match m with
  | (t, Ok a) => let '(t', r) := f a in (t ++ t', r)
  | (t, Raise e) => (t, Raise e)
  end.

Definition emit (e : event) : M unit := ([e], Ok ()).
Definition raise {A} (e : exn) : M A := ([], Raise e).
Definition external {A} (e : event) (r : result A) : M A := ([e], r).

(** [try: m except: h], where [h e = None] when no clause matches [e]. *)
Definition try_except {A} (m : M A) (h : exn → option (M A)) : M A :=
  match m with
  | (t, Ok a) => (t, Ok a)
  | (t, Raise e) =>
      match h e with
      | Some (t', r) => (t ++ t', r)
      | None => (t, Raise e)
      end
  end.

Definition trace {A} (m : M A) : list event := m.1.
Definition outcome {A} (m : M A) : result A := m.2.

(** ** Built-ins *)

Definition print (t : text) : M unit := emit (Print t).
Definition pprint (v : pyvalue) : M unit := emit (Print [Pformat v]).
Definition sys_exit {A} (msg : string) : M A := raise (SystemExit msg).

(** [d[k]] on a dict *)
Definition subscript `{Countable K} {V} (d : gmap K V) (k : K) : M V :=
  match d !! k with
  | Some v => mret v
  | None => raise KeyError
  end.

(** [l[i]] on a list *)
Definition index {V} (l : list V) (i : nat) : M V :=
  match l !! i with
  | Some v => mret v
  | None => raise IndexError
  end.

(** [all(l)] *)
Definition all (l : list bool) : bool := forallb id l.

Definition lower_ascii (c : Ascii.ascii) : Ascii.ascii :=
  let n := Ascii.N_of_ascii c in
  if ((65 <=? n) && (n <=? 90))%N then Ascii.ascii_of_N (n + 32) else c.

(** [s.lower()], on the ASCII strings [platform.system()] returns *)
Fixpoint lower (s : string) : string :=
  match s with
  | EmptyString => EmptyString
  | String c s' => String (lower_ascii c) (lower s')
  end.

(** ** Collaborator calls *)

Definition netifaces_gateways (w : World) : M Gateways :=
  external CallGateways (Ok (gateways w)).
Definition netifaces_ifaddresses (w : World) (interface : string)
  : M (gmap Z (list (gmap string string))) :=
  external (CallIfaddresses interface) (ifaddresses w interface).
Definition psutil_net_if_stats (w : World) : M (gmap string snicstats) :=
  external CallNetIfStats (Ok (net_if_stats w)).
Definition platform_system_ (w : World) : M string :=
  external CallPlatformSystem (Ok (platform_system w)).
Definition subprocess_call_ (w : World) (req : SpawnRequest) : M Z :=
  external (CallSubprocess req) (subprocess_call w req).
Definition dns_resolve (w : World) (host : string) : M (list string) :=
  external (CallResolve host) (resolve w host).
Definition dns_get_default_resolver (w : World) : M Resolver :=
  external CallGetDefaultResolver (get_default_resolver w).

(** ** Network discovery *)

Definition get_default_route_interface_name (w : World) : M string :=
  gateways ← netifaces_gateways w;
  if bool_decide (is_Some (gw_default gateways !! AF_INET)) then
    default_gateway ← subscript (gw_default gateways) AF_INET;
    mret default_gateway.2
  else
    print [Text "no default gateway in: gateways="; Repr (PGateways gateways);
           Text ", internet is probably broken"];;
    print [Text "network interfaces: "];;
    stats ← psutil_net_if_stats w;
    pprint (PIfStats stats);;
    sys_exit "No default gateway!".

Definition get_interface_ip_address (w : World) (interface : string) : M string :=
  addrs ← netifaces_ifaddresses w interface;
  inet ← subscript addrs AF_INET;
  first ← index inet 0;
  subscript first "addr".

Definition get_default_gateway (w : World) : M string :=
  gateways ← netifaces_gateways w;
  default_gateway ← subscript (gw_default gateways) AF_INET;
  mret default_gateway.1.

(** ** Reachability and resolvability *)

(** The [subprocess.call] that [is_host_reachable] makes. *)
Definition ping_request (w : World) (host : string) : SpawnRequest :=
  let param := if String.eqb (lower (platform_system w)) "windows" then "-n" else "-c" in
  {| args := ["ping"; param; "1"; host];
     stdout := DEVNULL; stderr := STDOUT; timeout := None |}.

Definition is_host_reachable (w : World) (host : string) : M bool :=
  system ← platform_system_ w;
  let param := if String.eqb (lower system) "windows" then "-n" else "-c" in
  let command := ["ping"; param; "1"; host] in
  rc ← subprocess_call_ w {| args := command; stdout := DEVNULL;
                             stderr := STDOUT; timeout := None |};
  let result := (rc =? 0)%Z in
  (if negb result
   then print [Text "host="; Repr (PStr host); Text " was not reachable..."]
   else mret ());;
  mret result.

Definition is_host_resolvable (w : World) (host : string) : M bool :=
  try_except
    (dns_resolve w host;; mret true)
    (λ e, match e with
          | NXDOMAIN =>
              Some (print [Text "nameserver claims that host="; Repr (PStr host);
                           Text " does not exist"];;
                    mret false)
          | NoNameservers =>
              Some (print [Text "all nameservers failed to answer for host=";
                           Repr (PStr host)];;
                    mret false)
          | _ => None
          end).

(** ** The dataclass [DingResult] *)

(** A method runs on [self]: it yields its trace, [self] as the call leaves
    it (also when it raises), and its result. *)
Definition Method (A : Type) : Type := DingResult → list event * (DingResult * result A).

#[global] Instance Method_ret : MRet Method := λ A a self, ([], (self, Ok a)).
#[global] Instance Method_bind : MBind Method := λ A B f m self,
  match m self with
  | (t, (self', Ok a)) => let '(t', r) := f a self' in (t ++ t', r)
  | (t, (self', Raise e)) => (t, (self', Raise e))
  end.

(** A plain function called from a method body. *)
Definition call {A} (m : M A) : Method A := λ self, (m.1, (self, m.2)).
(** [self.f] *)
Definition getattr {A} (f : DingResult → A) : Method A := λ self, ([], (self, Ok (f self))).
(** [self.f = v], given the record update for [f] *)
Definition setattr (upd : DingResult → DingResult) : Method unit :=
  λ self, ([], (upd self, Ok ())).

Definition set_default_resolver (v : ResolverField) (self : DingResult) : DingResult :=
  {| interface_name := interface_name self;
     default_gateway := default_gateway self;
     default_resolver := v;
     default_gateway_reachable := default_gateway_reachable self;
     google_reachable := google_reachable self;
     default_resolver_reachable := default_resolver_reachable self;
     google_resolvable := google_resolvable self;
     good := good self |}.
Definition set_default_gateway_reachable (v : bool) (self : DingResult) : DingResult :=
  {| interface_name := interface_name self;
     default_gateway := default_gateway self;
     default_resolver := default_resolver self;
     default_gateway_reachable := v;
     google_reachable := google_reachable self;
     default_resolver_reachable := default_resolver_reachable self;
     google_resolvable := google_resolvable self;
     good := good self |}.
Definition set_google_reachable (v : bool) (self : DingResult) : DingResult :=
  {| interface_name := interface_name self;
     default_gateway := default_gateway self;
     default_resolver := default_resolver self;
     default_gateway_reachable := default_gateway_reachable self;
     google_reachable := v;
     default_resolver_reachable := default_resolver_reachable self;
     google_resolvable := google_resolvable self;
     good := good self |}.
Definition set_default_resolver_reachable (v : bool) (self : DingResult) : DingResult :=
  {| interface_name := interface_name self;
     default_gateway := default_gateway self;
     default_resolver := default_resolver self;
     default_gateway_reachable := default_gateway_reachable self;
     google_reachable := google_reachable self;
     default_resolver_reachable := v;
     google_resolvable := google_resolvable self;
     good := good self |}.
Definition set_google_resolvable (v : bool) (self : DingResult) : DingResult :=
  {| interface_name := interface_name self;
     default_gateway := default_gateway self;
     default_resolver := default_resolver self;
     default_gateway_reachable := default_gateway_reachable self;
     google_reachable := google_reachable self;
     default_resolver_reachable := default_resolver_reachable self;
     google_resolvable := v;
     good := good self |}.
Definition set_good (v : bool) (self : DingResult) : DingResult :=
  {| interface_name := interface_name self;
     default_gateway := default_gateway self;
     default_resolver := default_resolver self;
     default_gateway_reachable := default_gateway_reachable self;
     google_reachable := google_reachable self;
     default_resolver_reachable := default_resolver_reachable self;
     google_resolvable := google_resolvable self;
     good := v |}.

(** [v.nameservers]: an attribute of the resolver object, not of a dict *)
Definition attr_nameservers (v : ResolverField) : M (list string) :=
  match v with
  | AsObject r => mret (nameservers r)
  | AsAttrDict _ => raise AttributeError
  end.

(** [v.__dict__]: the attribute dict of the resolver object; a dict has none *)
Definition attr_dict (v : ResolverField) : M ResolverField :=
  match v with
  | AsObject r => mret (AsAttrDict r)
  | AsAttrDict _ => raise AttributeError
  end.

Definition __post_init__ (w : World) : Method unit :=
  gw ← getattr default_gateway;
  b ← call (is_host_reachable w gw);
  setattr (set_default_gateway_reachable b);;
  b ← call (is_host_reachable w "8.8.8.8");
  setattr (set_google_reachable b);;
  res ← getattr default_resolver;
  ns ← call (attr_nameservers res);
  host ← call (index ns 0);
  b ← call (is_host_reachable w host);
  setattr (set_default_resolver_reachable b);;
  b ← call (is_host_resolvable w "google.com");
  setattr (set_google_resolvable b);;
  b1 ← getattr default_gateway_reachable;
  b2 ← getattr google_reachable;
  b3 ← getattr default_resolver_reachable;
  b4 ← getattr google_resolvable;
  setattr (set_good (all [b1; b2; b3; b4])).

(** [d = self.__dict__] is the instance dict itself, so the assignment to
    [d['default_resolver']] is an assignment to the attribute. *)
Definition __str__ : Method text :=
  res ← getattr default_resolver;
  dict ← call (attr_dict res);
  setattr (set_default_resolver dict);;
  d ← getattr id;
  mret [Pformat (PInstanceDict d)].

(** The generated [__init__]: store the eight arguments, then run
    [__post_init__]. *)
Definition __init__ (w : World) (args : DingResult) : list event * (DingResult * result unit) :=
  __post_init__ w args.

(** The class object: the defaults of the fields, computed when the class
    body runs. *)
Record DingResultClass := {
  interface_name_default : string;
  default_gateway_default : string;
  default_resolver_default : Resolver;
}.

(** The class body, lines 74 to 76; the five [field(default=False)] have
    nothing to compute. *)
Definition class_DingResult (w : World) : M DingResultClass :=
  n ← get_default_route_interface_name w;
  g ← get_default_gateway w;
  r ← dns_get_default_resolver w;
  mret {| interface_name_default := n;
          default_gateway_default := g;
          default_resolver_default := r |}.

Definition default_args (cls : DingResultClass) : DingResult :=
  {| interface_name := interface_name_default cls;
     default_gateway := default_gateway_default cls;
     default_resolver := AsObject (default_resolver_default cls);
     default_gateway_reachable := false;
     google_reachable := false;
     default_resolver_reachable := false;
     google_resolvable := false;
     good := false |}.

(** [DingResult(...)] with explicit arguments: the new instance, or the
    exception that [__init__] raised. *)
Definition construct (w : World) (args : DingResult) : M DingResult :=
  match __init__ w args with
  | (t, (self, Ok _)) => (t, Ok self)
  | (t, (_, Raise e)) => (t, Raise e)
  end.

(** [DingResult()]: every argument takes the default stored in the class. *)
Definition new_DingResult (cls : DingResultClass) (w : World) : M DingResult :=
  construct w (default_args cls).

(** [print(obj)]: render with [__str__], which may update [obj], and write. *)
Definition print_object (obj : DingResult) : M DingResult :=
  match __str__ obj with
  | (t, (obj', Ok s)) => (t ++ [Print s], Ok obj')
  | (t, (_, Raise e)) => (t, Raise e)
  end.

(** ** CLI entrypoint *)

Definition execute (cls : DingResultClass) (w : World) : M unit :=
  ding_result ← new_DingResult cls w;
  if negb (good ding_result) then
    print_object ding_result;;
    sys_exit "DOWN"
  else
    print_object ding_result;;
    print [Text "UP"].

(** The script run as [__main__]: the class body, then [execute()]. *)
Definition main (w : World) : M unit :=
  cls ← class_DingResult w;
  execute cls w.

(** How the interpreter ends the process. *)
Inductive stderr_line :=
| Message (s : string)
| Traceback (e : exn).

Record Exit := {
  exit_stdout : list text;
  exit_stderr : list stderr_line;
  exit_status : Z;
}.

Definition printed (t : list event) : list text :=
  omap (λ e, match e with Print s => Some s | _ => None end) t.

(** A normal return exits with 0; [SystemExit] carrying a string prints it
    on standard error and exits with 1; any other exception prints its
    traceback and exits with 1. *)
Definition run_process (m : M unit) : Exit :=
  match m with
  | (t, Ok _) => {| exit_stdout := printed t; exit_stderr := []; exit_status := 0 |}
  | (t, Raise (SystemExit msg)) =>
      {| exit_stdout := printed t; exit_stderr := [Message msg]; exit_status := 1 |}
  | (t, Raise e) =>
      {| exit_stdout := printed t; exit_stderr := [Traceback e]; exit_status := 1 |}
  end.

(** ** Reading traces *)

Definition spawned (t : list event) : list SpawnRequest :=
  omap (λ e, match e with CallSubprocess req => Some req | _ => None end) t.

Definition resolved (t : list event) : list string :=
  omap (λ e, match e with CallResolve host => Some host | _ => None end) t.

(** The calls that read the host's configuration. *)
Definition is_discovery (e : event) : bool :=
  match e with
  | CallGateways | CallIfaddresses _ | CallNetIfStats | CallGetDefaultResolver => true
  | _ => false
  end.

Definition discoveries (t : list event) : list event := List.filter is_discovery t.

(** A request carries a wait budget of its own when [subprocess.call] is
    given a [timeout], or when ping is given one of its wait options. *)
Definition wait_options : list string := ["-W"; "-w"; "-t"].

Definition explicit_wait_budget (req : SpawnRequest) : bool :=
  bool_decide (is_Some (timeout req))
  || existsb (λ a, bool_decide (a ∈ wait_options)) (args req).

(** A line that a check prints when it fails: a text, then the repr of
    the host. *)
Definition is_check_line (l : text) : bool :=
  match l with
  | Text _ :: Repr (PStr _) :: _ => true
  | _ => false
  end.

(** The trace of one check, of either kind. *)
Definition check_trace (w : World) (t : list event) : Prop :=
  ∃ host : string,
    t = trace (is_host_reachable w host) ∨ t = trace (is_host_resolvable w host).


(** The instance that a completed [__post_init__] leaves: the three
    discovered values as they were passed, the four answers of the checks,
    and their conjunction. *)
Definition checked (args : DingResult) (b1 b2 b3 b4 : bool) : DingResult :=
  {| interface_name := interface_name args;
     default_gateway := default_gateway args;
     default_resolver := default_resolver args;
     default_gateway_reachable := b1;
     google_reachable := b2;
     default_resolver_reachable := b3;
     google_resolvable := b4;
     good := all [b1; b2; b3; b4] |}.

(** ** Sample hosts *)

Module Sample.

Definition eth0_stats : snicstats :=
  {| isup := true; duplex := 2; speed := 1000; mtu := 1500 |}.

Definition home_resolver : Resolver :=
  {| nameservers := ["192.168.1.1"; "1.1.1.1"]; port := 53; search := [] |}.


Definition home_gateways : Gateways :=
  {| gw_default := {[ AF_INET := ("192.168.1.1", "eth0") ]};
     gw_routes := {[ AF_INET := [("192.168.1.1", "eth0", true)] ]} |}.

Definition no_ipv4_gateways : Gateways :=
  {| gw_default := {[ AF_INET6 := ("fe80::1", "eth0") ]};
     gw_routes := {[ AF_INET6 := [("fe80::1", "eth0", true)] ]} |}.

(** A Linux host on which every ping and every query succeeds. *)
Definition healthy : World :=
  {| gateways := home_gateways;
     ifaddresses := λ _, Ok {[ AF_INET := [ {[ "addr" := "192.168.1.17" ]} ] ]};
     net_if_stats := {[ "eth0" := eth0_stats ]};
     platform_system := "Linux";
     subprocess_call := λ _, Ok 0;
     resolve := λ _, Ok ["142.250.74.46"];
     get_default_resolver := Ok home_resolver |}.

(** The four checks answer as chosen: [a] for the gateway, [b] for
    8.8.8.8, [c] for the resolver, [d] for the query. *)
Definition answering (a b c d : bool) : World :=
  {| gateways :=
       {| gw_default := {[ AF_INET := ("10.0.0.1", "eth0") ]}; gw_routes := ∅ |};
     ifaddresses := λ _, Ok ∅;
     net_if_stats := {[ "eth0" := eth0_stats ]};
     platform_system := "Linux";
     subprocess_call := λ req,
       match args req with
       | [_; _; _; host] =>
           if String.eqb host "10.0.0.1" then Ok (if a then 0 else 1)
           else if String.eqb host "8.8.8.8" then Ok (if b then 0 else 1)
           else Ok (if c then 0 else 2)
       | _ => Ok 64
       end;
     resolve := λ _, if d then Ok ["142.250.74.46"] else Raise NXDOMAIN;
     get_default_resolver :=
       Ok {| nameservers := ["10.0.0.53"]; port := 53; search := [] |} |}.

(** The same host as [healthy] with Windows as its platform. *)
Definition windows : World :=
  {| gateways := home_gateways;
     ifaddresses := ifaddresses healthy;
     net_if_stats := net_if_stats healthy;
     platform_system := "Windows";
     subprocess_call := λ _, Ok 0;
     resolve := resolve healthy;
     get_default_resolver := Ok home_resolver |}.


(** A host without an IPv4 default route. *)
Definition no_route : World :=
  {| gateways := no_ipv4_gateways;
     ifaddresses := ifaddresses healthy;
     net_if_stats := net_if_stats healthy;
     platform_system := "Linux";
     subprocess_call := λ _, Ok 2;
     resolve := λ _, Raise NoNameservers;
     get_default_resolver := Ok home_resolver |}.

(** A container image without the ping utility. *)
Definition no_ping : World :=
  {| gateways := home_gateways;
     ifaddresses := ifaddresses healthy;
     net_if_stats := net_if_stats healthy;
     platform_system := "Linux";
     subprocess_call := λ _, Raise (OtherError "FileNotFoundError");
     resolve := resolve healthy;
     get_default_resolver := Ok home_resolver |}.

(** The resolvers do not answer in time. *)
Definition dns_timeout : World :=
  {| gateways := home_gateways;
     ifaddresses := ifaddresses healthy;
     net_if_stats := net_if_stats healthy;
     platform_system := "Linux";
     subprocess_call := λ _, Ok 0;
     resolve := λ _, Raise (OtherError "LifetimeTimeout");
     get_default_resolver := Ok home_resolver |}.

(** The class objects that the class body builds on [healthy] and on
    [answering]. *)
Definition home_class : DingResultClass :=
  {| interface_name_default := "eth0";
     default_gateway_default := "192.168.1.1";
     default_resolver_default := home_resolver |}.

Definition answering_class : DingResultClass :=
  {| interface_name_default := "eth0";
     default_gateway_default := "10.0.0.1";
     default_resolver_default :=
       {| nameservers := ["10.0.0.53"]; port := 53; search := [] |} |}.

(** A host on which the DNS library finds no configuration to read. *)
Definition no_resolv_conf : World :=
  {| gateways := home_gateways;
     ifaddresses := ifaddresses healthy;
     net_if_stats := net_if_stats healthy;
     platform_system := "Linux";
     subprocess_call := λ _, Ok 0;
     resolve := λ _, Raise NoNameservers;
     get_default_resolver := Raise (OtherError "NoResolverConfiguration") |}.

(** A host with two interfaces: one has an IPv4 address, the other only an
    IPv6 one; any other name is unknown to netifaces. *)
Definition two_interfaces : World :=
  {| gateways := home_gateways;
     ifaddresses := λ name,
       if String.eqb name "eth0" then
         Ok {[ AF_INET := [ {[ "addr" := "192.168.1.17"; "netmask" := "255.255.255.0" ]};
                            {[ "addr" := "192.168.1.18" ]} ] ]}
       else if String.eqb name "tun0" then
         Ok {[ AF_INET6 := [ {[ "addr" := "fe80::2" ]} ] ]}
       else Raise (OtherError "ValueError");
     net_if_stats := net_if_stats healthy;
     platform_system := "Linux";
     subprocess_call := λ _, Ok 0;
     resolve := resolve healthy;
     get_default_resolver := Ok home_resolver |}.

(** The host of [healthy] after it moved to another network. *)
Definition moved : World :=
  {| gateways :=
       {| gw_default := {[ AF_INET := ("172.16.0.1", "wlan0") ]}; gw_routes := ∅ |};
     ifaddresses := ifaddresses healthy;
     net_if_stats := net_if_stats healthy;
     platform_system := "Linux";
     subprocess_call := λ _, Ok 0;
     resolve := resolve healthy;
     get_default_resolver :=
       Ok {| nameservers := ["172.16.0.53"]; port := 53; search := [] |} |}.

End Sample.

(** ** The reachability checker *)

Section Reachability.

Variable w : World.
Variable host : string.

(** The one request a call makes. *)
Let req : SpawnRequest := ping_request w host.

Let complaint : event :=
  Print [Text "host="; Repr (PStr host); Text " was not reachable..."].

(** The whole behaviour of a call, by what [subprocess.call] does. *)
Lemma is_host_reachable_run :
  is_host_reachable w host =
  match subprocess_call w req with
  | Ok rc =>
      ([CallPlatformSystem; CallSubprocess req] ++ (if (rc =? 0)%Z then [] else [complaint]),
       Ok (rc =? 0)%Z)
  | Raise e => ([CallPlatformSystem; CallSubprocess req], Raise e)
  end.
Proof.
  unfold is_host_reachable, req, ping_request, complaint. cbn.
  destruct (subprocess_call w _) as [rc|e]; cbn; [|reflexivity].
  destruct (rc =? 0)%Z; reflexivity.
Qed.

Lemma is_host_reachable_trace_prefix :
  ∃ rest, trace (is_host_reachable w host) = [CallPlatformSystem; CallSubprocess req] ++ rest
          ∧ spawned rest = [] ∧ resolved rest = [] ∧ discoveries rest = [].
Proof.
  rewrite is_host_reachable_run.
  destruct (subprocess_call w req) as [rc|e]; cbn.
  - destruct (rc =? 0)%Z; eexists; (split; [reflexivity|]); repeat split.
  - exists []. repeat split.
Qed.

End Reachability.

Lemma is_host_reachable_spawned w host :
  spawned (trace (is_host_reachable w host)) = [ping_request w host].
Proof.
  rewrite is_host_reachable_run.
  destruct (subprocess_call w _) as [rc|e]; cbn; [destruct (rc =? 0)%Z|]; reflexivity.
Qed.

Lemma is_host_reachable_resolved w host :
  resolved (trace (is_host_reachable w host)) = [].
Proof.
  rewrite is_host_reachable_run.
  destruct (subprocess_call w _) as [rc|e]; cbn; [destruct (rc =? 0)%Z|]; reflexivity.
Qed.

Lemma is_host_reachable_discoveries w host :
  discoveries (trace (is_host_reachable w host)) = [].
Proof.
  rewrite is_host_reachable_run.
  destruct (subprocess_call w _) as [rc|e]; cbn; [destruct (rc =? 0)%Z|]; reflexivity.
Qed.

(** What a call that returns has printed. *)
Lemma is_host_reachable_printed (w : World) (host : string) (b : bool) :
  outcome (is_host_reachable w host) = Ok b →
  printed (trace (is_host_reachable w host)) =
  if b then [] else [[Text "host="; Repr (PStr host); Text " was not reachable..."]].
Proof.
  rewrite is_host_reachable_run.
  destruct (subprocess_call w _) as [rc|e]; cbn; [|discriminate].
  intros [= <-]. destruct (rc =? 0)%Z; reflexivity.
Qed.

(** C10.  When the ping child exits with status [rc], the check returns
    [true] exactly when [rc] is 0.  For every nonzero status the call is the
    same, trace and result: one spawn, the line that the host was not
    reachable, and [false]; nothing of the status survives. *)
Theorem reachable_iff_exit_status_zero (w : World) (host : string) (rc : Z) :
  subprocess_call w (ping_request w host) = Ok rc →
  outcome (is_host_reachable w host) = Ok (bool_decide (rc = 0))
  ∧ (outcome (is_host_reachable w host) = Ok true ↔ rc = 0)
  ∧ (rc ≠ 0 →
     is_host_reachable w host =
     ([CallPlatformSystem; CallSubprocess (ping_request w host);
       Print [Text "host="; Repr (PStr host); Text " was not reachable..."]],
      Ok false)).
Proof.
  intros Hrc. rewrite is_host_reachable_run, Hrc. cbn.
  destruct (Z.eqb_spec rc 0) as [->|Hne].
  - repeat split; done.
  - rewrite bool_decide_eq_false_2 by done.
    repeat split; done.
Qed.

Lemma reachable_iff_exit_status_zero_witness :
  outcome (is_host_reachable Sample.no_route "8.8.8.8") = Ok (bool_decide (2 = 0))
  ∧ (outcome (is_host_reachable Sample.no_route "8.8.8.8") = Ok true ↔ 2 = 0)
  ∧ (2 ≠ 0 →
     is_host_reachable Sample.no_route "8.8.8.8" =
     ([CallPlatformSystem; CallSubprocess (ping_request Sample.no_route "8.8.8.8");
       Print [Text "host="; Repr (PStr "8.8.8.8"); Text " was not reachable..."]],
      Ok false)).
Proof.
  apply (reachable_iff_exit_status_zero Sample.no_route "8.8.8.8" 2).
  reflexivity.
Defined.

(** Two failures of different kinds leave the same trace and the same result. *)
Lemma nonzero_statuses_indistinguishable (w1 w2 : World) (host : string) (rc1 rc2 : Z) :
  platform_system w1 = platform_system w2 →
  subprocess_call w1 (ping_request w1 host) = Ok rc1 →
  subprocess_call w2 (ping_request w2 host) = Ok rc2 →
  rc1 ≠ 0 → rc2 ≠ 0 →
  is_host_reachable w1 host = is_host_reachable w2 host.
Proof.
  intros Hp H1 H2 Hn1 Hn2.
  rewrite !is_host_reachable_run, H1, H2.
  apply Z.eqb_neq in Hn1, Hn2. rewrite Hn1, Hn2.
  unfold ping_request. rewrite Hp. reflexivity.
Qed.

(** C7, as stated, fails: where the ping utility cannot be started,
    [subprocess.call] raises and the check passes the exception on. *)
Lemma reachable_raises_without_ping :
  ¬ (∀ (w : World) (host : string), ∃ b : bool, outcome (is_host_reachable w host) = Ok b).
Proof.
  intros H. destruct (H Sample.no_ping "127.0.0.1") as [b Hb].
  vm_compute in Hb. discriminate.
Qed.

(** C7, amended.  Whenever the ping child runs to an exit status, the check
    returns a boolean and does not raise: [true] for status 0, and for any
    other status [false] after printing that the host was not reachable.
    An exception of [subprocess.call] itself is not caught. *)
Theorem reachable_total_on_exit_status (w : World) (host : string) :
  match subprocess_call w (ping_request w host) with
  | Ok rc =>
      outcome (is_host_reachable w host) = Ok (rc =? 0)%Z
      ∧ printed (trace (is_host_reachable w host)) =
        (if (rc =? 0)%Z then []
         else [[Text "host="; Repr (PStr host); Text " was not reachable..."]])
  | Raise e => outcome (is_host_reachable w host) = Raise e
  end.
Proof.
  rewrite is_host_reachable_run.
  destruct (subprocess_call w _) as [rc|e]; cbn; [|reflexivity].
  destruct (rc =? 0)%Z; split; reflexivity.
Qed.

(** C8, as stated, fails: the request of a check carries no wait budget,
    neither a [timeout] for [subprocess.call] nor a wait option for ping. *)
Lemma reachable_requests_no_wait_budget :
  ¬ (∀ (w : World) (host : string) (req : SpawnRequest),
       req ∈ spawned (trace (is_host_reachable w host)) → explicit_wait_budget req = true).
Proof.
  intros H.
  specialize (H Sample.healthy "8.8.8.8"
                {| args := ["ping"; "-c"; "1"; "8.8.8.8"]; stdout := DEVNULL;
                   stderr := STDOUT; timeout := None |}).
  vm_compute in H. discriminate H. left.
Qed.

(** C8, amended.  A check calls [subprocess.call] exactly once, with the
    command ping, the count option of the platform ([-n] when
    [platform.system()] is "windows" in any letter case, [-c] otherwise),
    the count 1 and the host; both output streams are discarded and no
    [timeout] is passed.  How long the call waits is left to ping. *)
Theorem reachable_spawns_one_ping (w : World) (host : string) :
  spawned (trace (is_host_reachable w host)) =
  [ {| args := ["ping";
                if String.eqb (lower (platform_system w)) "windows" then "-n" else "-c";
                "1"; host];
       stdout := DEVNULL; stderr := STDOUT; timeout := None |} ].
Proof. apply is_host_reachable_spawned. Qed.

Example reachable_spawns_on_linux :
  spawned (trace (is_host_reachable Sample.healthy "8.8.8.8")) =
  [ {| args := ["ping"; "-c"; "1"; "8.8.8.8"];
       stdout := DEVNULL; stderr := STDOUT; timeout := None |} ].
Proof. reflexivity. Qed.

Example reachable_spawns_on_windows :
  spawned (trace (is_host_reachable Sample.windows "8.8.8.8")) =
  [ {| args := ["ping"; "-n"; "1"; "8.8.8.8"];
       stdout := DEVNULL; stderr := STDOUT; timeout := None |} ].
Proof. reflexivity. Qed.

(** ** The resolvability checker *)

Lemma is_host_resolvable_run (w : World) (host : string) :
  is_host_resolvable w host =
  match resolve w host with
  | Ok _ => ([CallResolve host], Ok true)
  | Raise NXDOMAIN =>
      ([CallResolve host;
        Print [Text "nameserver claims that host="; Repr (PStr host); Text " does not exist"]],
       Ok false)
  | Raise NoNameservers =>
      ([CallResolve host;
        Print [Text "all nameservers failed to answer for host="; Repr (PStr host)]],
       Ok false)
  | Raise e => ([CallResolve host], Raise e)
  end.
Proof.
  unfold is_host_resolvable, dns_resolve, external. cbn.
  destruct (resolve w host) as [a|[]]; reflexivity.
Qed.

Lemma is_host_resolvable_calls (w : World) (host : string) :
  spawned (trace (is_host_resolvable w host)) = []
  ∧ resolved (trace (is_host_resolvable w host)) = [host]
  ∧ discoveries (trace (is_host_resolvable w host)) = [].
Proof.
  rewrite is_host_resolvable_run.
  destruct (resolve w host) as [a|[]]; repeat split.
Qed.

(** C3, as stated, fails: a failure of the query that is neither NXDOMAIN
    nor NoNameservers, such as a timeout, reaches the caller as an exception. *)
Lemma resolvable_raises_on_timeout :
  ¬ (∀ (w : World) (host : string), ∃ b : bool, outcome (is_host_resolvable w host) = Ok b).
Proof.
  intros H. destruct (H Sample.dns_timeout "google.com") as [b Hb].
  vm_compute in Hb. discriminate.
Qed.

(** C3, amended.  The check returns [true] when the query returns an
    answer, [false] when it raises NXDOMAIN and [false] when it raises
    NoNameservers; any other exception of the query is raised to the caller. *)
Theorem resolvable_handles_two_failures (w : World) (host : string) :
  outcome (is_host_resolvable w host) =
  match resolve w host with
  | Ok _ => Ok true
  | Raise NXDOMAIN => Ok false
  | Raise NoNameservers => Ok false
  | Raise e => Raise e
  end.
Proof.
  rewrite is_host_resolvable_run.
  destruct (resolve w host) as [a|[]]; reflexivity.
Qed.

(** ** Network discovery without an IPv4 default route *)

Section NoDefaultRoute.

Variable w : World.
Hypothesis no_route : gw_default (gateways w) !! AF_INET = None.

(** [get_default_route_interface_name] reports, dumps the interface
    statistics and exits. *)
Lemma interface_name_dumps_and_exits :
  get_default_route_interface_name w =
  ([CallGateways;
    Print [Text "no default gateway in: gateways="; Repr (PGateways (gateways w));
           Text ", internet is probably broken"];
    Print [Text "network interfaces: "];
    CallNetIfStats;
    Print [Pformat (PIfStats (net_if_stats w))]],
   Raise (SystemExit "No default gateway!")).
Proof.
  unfold get_default_route_interface_name. cbn.
  rewrite bool_decide_eq_false_2; [reflexivity|].
  rewrite no_route. intros [x Hx]. discriminate.
Qed.

(** [get_default_gateway] subscripts the dict without looking first. *)
Lemma default_gateway_key_error :
  get_default_gateway w = ([CallGateways], Raise KeyError).
Proof.
  unfold get_default_gateway, subscript. cbn. rewrite no_route. reflexivity.
Qed.

(** The run ends in the class body at the first lookup. *)
Lemma main_exits_without_route :
  trace (main w) = trace (get_default_route_interface_name w)
  ∧ outcome (main w) = Raise (SystemExit "No default gateway!")
  ∧ exit_status (run_process (main w)) = 1
  ∧ exit_stderr (run_process (main w)) = [Message "No default gateway!"].
Proof.
  unfold main, class_DingResult.
  rewrite interface_name_dumps_and_exits. cbn. repeat split.
Qed.

End NoDefaultRoute.

(** C5: on a host without an IPv4 default route
    [get_default_route_interface_name] prints the interface statistics and
    exits with "No default gateway!", while [get_default_gateway] raises
    KeyError and prints nothing. *)
Theorem default_gateway_fails_without_dump :
  printed (trace (get_default_route_interface_name Sample.no_route)) =
    [[Text "no default gateway in: gateways="; Repr (PGateways Sample.no_ipv4_gateways);
      Text ", internet is probably broken"];
     [Text "network interfaces: "];
     [Pformat (PIfStats (net_if_stats Sample.no_route))]]
  ∧ outcome (get_default_route_interface_name Sample.no_route)
    = Raise (SystemExit "No default gateway!")
  ∧ printed (trace (get_default_gateway Sample.no_route)) = []
  ∧ discoveries (trace (get_default_gateway Sample.no_route)) = [CallGateways]
  ∧ outcome (get_default_gateway Sample.no_route) = Raise KeyError.
Proof.
  assert (Hnone : gw_default (gateways Sample.no_route) !! AF_INET = None) by reflexivity.
  rewrite (interface_name_dumps_and_exits _ Hnone), (default_gateway_key_error _ Hnone).
  repeat split.
Qed.

(** With a default route both lookups read the same entry. *)
Lemma discovery_with_route (w : World) (addr name : string) :
  gw_default (gateways w) !! AF_INET = Some (addr, name) →
  get_default_route_interface_name w = ([CallGateways], Ok name)
  ∧ get_default_gateway w = ([CallGateways], Ok addr).
Proof.
  intros Hgw. unfold get_default_route_interface_name, get_default_gateway, subscript. cbn.
  rewrite Hgw. rewrite bool_decide_eq_true_2 by eauto. split; reflexivity.
Qed.

(** ** Construction of a [DingResult] *)

#[local] Arguments is_host_reachable : simpl never.
#[local] Arguments is_host_resolvable : simpl never.
#[local] Arguments discoveries : simpl never.
#[local] Arguments spawned : simpl never.
#[local] Arguments resolved : simpl never.
#[local] Arguments printed : simpl never.

(** A construction that returns has run the four checks in order, and
    nothing else. *)
Lemma construct_inv (w : World) (args self : DingResult) :
  outcome (construct w args) = Ok self →
  ∃ (r : Resolver) (host : string) (b1 b2 b3 b4 : bool),
    default_resolver args = AsObject r
    ∧ nameservers r !! 0%nat = Some host
    ∧ outcome (is_host_reachable w (default_gateway args)) = Ok b1
    ∧ outcome (is_host_reachable w "8.8.8.8") = Ok b2
    ∧ outcome (is_host_reachable w host) = Ok b3
    ∧ outcome (is_host_resolvable w "google.com") = Ok b4
    ∧ self = checked args b1 b2 b3 b4
    ∧ trace (construct w args) =
        trace (is_host_reachable w (default_gateway args))
        ++ trace (is_host_reachable w "8.8.8.8")
        ++ trace (is_host_reachable w host)
        ++ trace (is_host_resolvable w "google.com").
Proof.
  unfold construct, __init__, __post_init__, outcome, trace.
  unfold mbind, Method_bind, getattr, setattr, call, mret, Method_ret. cbn.
  destruct (is_host_reachable w (default_gateway args)) as [t1 [b1|e1]]; cbn; [|discriminate].
  destruct (is_host_reachable w "8.8.8.8") as [t2 [b2|e2]]; cbn; [|discriminate].
  destruct (default_resolver args) as [r|r] eqn:Hres; cbn; [|discriminate].
  unfold index. destruct (nameservers r !! 0%nat) as [host|] eqn:Hns; cbn; [|discriminate].
  destruct (is_host_reachable w host) as [t3 [b3|e3]] eqn:H3; cbn; [|discriminate].
  destruct (is_host_resolvable w "google.com") as [t4 [b4|e4]]; cbn; [|discriminate].
  intros [= <-].
  exists r, host, b1, b2, b3, b4. rewrite H3.
  split; [reflexivity|]. split; [exact Hns|]. do 4 (split; [reflexivity|]). split.
  - unfold checked, set_good; cbn. rewrite Hres. reflexivity.
  - cbn. rewrite ?app_nil_r, <- ?app_assoc. reflexivity.
Qed.

(** When the resolver has a first nameserver and the four checks return,
    the construction returns: it is not only correct if it returns. *)
Lemma construct_run (w : World) (args : DingResult) (r : Resolver) (host : string)
      (b1 b2 b3 b4 : bool) :
  default_resolver args = AsObject r →
  nameservers r !! 0%nat = Some host →
  outcome (is_host_reachable w (default_gateway args)) = Ok b1 →
  outcome (is_host_reachable w "8.8.8.8") = Ok b2 →
  outcome (is_host_reachable w host) = Ok b3 →
  outcome (is_host_resolvable w "google.com") = Ok b4 →
  construct w args =
  (trace (is_host_reachable w (default_gateway args))
   ++ trace (is_host_reachable w "8.8.8.8")
   ++ trace (is_host_reachable w host)
   ++ trace (is_host_resolvable w "google.com"),
   Ok (checked args b1 b2 b3 b4)).
Proof.
  unfold construct, __init__, __post_init__, outcome, trace.
  unfold mbind, Method_bind, getattr, setattr, call, mret, Method_ret. cbn.
  intros Hres Hns H1 H2 H3 H4.
  destruct (is_host_reachable w (default_gateway args)) as [t1 o1]; cbn in *; subst o1.
  destruct (is_host_reachable w "8.8.8.8") as [t2 o2]; cbn in *; subst o2.
  rewrite Hres. cbn. unfold index. rewrite Hns. cbn.
  destruct (is_host_reachable w host) as [t3 o3]; cbn in *; subst o3.
  destruct (is_host_resolvable w "google.com") as [t4 o4]; cbn in *; subst o4.
  cbn. rewrite ?app_nil_r, <- ?app_assoc. unfold checked, set_good. cbn.
  rewrite Hres. reflexivity.
Qed.


Lemma discoveries_app (t1 t2 : list event) :
  discoveries (t1 ++ t2) = discoveries t1 ++ discoveries t2.
Proof. apply List.filter_app. Qed.

Lemma spawned_app (t1 t2 : list event) : spawned (t1 ++ t2) = spawned t1 ++ spawned t2.
Proof. apply omap_app. Qed.

Lemma resolved_app (t1 t2 : list event) : resolved (t1 ++ t2) = resolved t1 ++ resolved t2.
Proof. apply omap_app. Qed.

Lemma printed_app (t1 t2 : list event) : printed (t1 ++ t2) = printed t1 ++ printed t2.
Proof. apply omap_app. Qed.

(** No construction, completed or not, reads the host's configuration. *)
Lemma construct_no_discovery (w : World) (args : DingResult) :
  discoveries (trace (construct w args)) = [].
Proof.
  unfold construct, __init__, __post_init__, trace.
  unfold mbind, Method_bind, getattr, setattr, call, mret, Method_ret. cbn.
  pose proof (is_host_reachable_discoveries w (default_gateway args)) as D1.
  pose proof (is_host_reachable_discoveries w "8.8.8.8") as D2.
  pose proof (is_host_resolvable_calls w "google.com") as (_ & _ & D4).
  unfold trace in *.
  destruct (is_host_reachable w (default_gateway args)) as [t1 [b1|e1]]; cbn in *; [|done].
  destruct (is_host_reachable w "8.8.8.8") as [t2 [b2|e2]]; cbn in *;
    [|by rewrite discoveries_app, D1, D2].
  destruct (default_resolver args) as [r|r]; cbn;
    [|by rewrite ?app_nil_r, discoveries_app, D1, D2].
  unfold index. destruct (nameservers r !! 0%nat) as [host|]; cbn;
    [|by rewrite ?app_nil_r, discoveries_app, D1, D2].
  pose proof (is_host_reachable_discoveries w host) as D3. unfold trace in D3.
  destruct (is_host_reachable w host) as [t3 [b3|e3]]; cbn in *;
    [|by rewrite ?app_nil_r, !discoveries_app, D1, D2, D3].
  destruct (is_host_resolvable w "google.com") as [t4 [b4|e4]]; cbn in *;
    by rewrite ?app_nil_r, !discoveries_app, D1, D2, D3, D4.
Qed.

(** ** Rendering *)

Lemma str_run (self : DingResult) (r : Resolver) :
  default_resolver self = AsObject r →
  __str__ self =
  ([], (set_default_resolver (AsAttrDict r) self,
        Ok [Pformat (PInstanceDict (set_default_resolver (AsAttrDict r) self))])).
Proof.
  intros Hres. unfold __str__.
  unfold mbind, Method_bind, getattr, setattr, call, mret, Method_ret. cbn.
  rewrite Hres. reflexivity.
Qed.

Lemma str_again (self : DingResult) (r : Resolver) :
  default_resolver self = AsAttrDict r →
  __str__ self = ([], (self, Raise AttributeError)).
Proof.
  intros Hres. unfold __str__.
  unfold mbind, Method_bind, getattr, setattr, call, mret, Method_ret. cbn.
  rewrite Hres. reflexivity.
Qed.

(** Whatever [__str__] does, the seven other attributes stay. *)
Lemma str_frame (self : DingResult) :
  let self' := (__str__ self).2.1 in
  interface_name self' = interface_name self
  ∧ default_gateway self' = default_gateway self
  ∧ default_gateway_reachable self' = default_gateway_reachable self
  ∧ google_reachable self' = google_reachable self
  ∧ default_resolver_reachable self' = default_resolver_reachable self
  ∧ google_resolvable self' = google_resolvable self
  ∧ good self' = good self.
Proof.
  destruct (default_resolver self) as [r|r] eqn:Hres.
  - rewrite (str_run self r Hres). repeat split.
  - rewrite (str_again self r Hres). repeat split.
Qed.

Lemma print_object_fresh (obj : DingResult) (r : Resolver) :
  default_resolver obj = AsObject r →
  print_object obj =
  ([Print [Pformat (PInstanceDict (set_default_resolver (AsAttrDict r) obj))]],
   Ok (set_default_resolver (AsAttrDict r) obj)).
Proof. intros Hres. unfold print_object. rewrite (str_run obj r Hres). reflexivity. Qed.

(** ** The verdict *)

(** C1.  Whatever the four checks answer, the construction returns an
    instance whose four check fields are those answers and whose [good] is
    their conjunction: [true] exactly when all four are [true]. *)
Theorem verdict_is_conjunction (w : World) (args : DingResult) (r : Resolver) (host : string)
        (b1 b2 b3 b4 : bool) :
  default_resolver args = AsObject r →
  nameservers r !! 0%nat = Some host →
  outcome (is_host_reachable w (default_gateway args)) = Ok b1 →
  outcome (is_host_reachable w "8.8.8.8") = Ok b2 →
  outcome (is_host_reachable w host) = Ok b3 →
  outcome (is_host_resolvable w "google.com") = Ok b4 →
  ∃ self : DingResult,
    outcome (construct w args) = Ok self
    ∧ default_gateway_reachable self = b1
    ∧ google_reachable self = b2
    ∧ default_resolver_reachable self = b3
    ∧ google_resolvable self = b4
    ∧ good self = b1 && b2 && b3 && b4
    ∧ (good self = true ↔ b1 = true ∧ b2 = true ∧ b3 = true ∧ b4 = true).
Proof.
  intros Hres Hns H1 H2 H3 H4.
  exists (checked args b1 b2 b3 b4).
  rewrite (construct_run w args r host b1 b2 b3 b4 Hres Hns H1 H2 H3 H4).
  repeat split; try reflexivity.
  - destruct b1, b2, b3, b4; reflexivity.
  - destruct b1; [reflexivity|discriminate].
  - destruct b1, b2; try reflexivity; discriminate.
  - destruct b1, b2, b3; try reflexivity; discriminate.
  - destruct b1, b2, b3, b4; try reflexivity; discriminate.
  - intros (-> & -> & -> & ->). reflexivity.
Qed.

Lemma verdict_is_conjunction_witness :
  ∃ self : DingResult,
    outcome (construct (Sample.answering true false true false)
                       (default_args Sample.answering_class)) = Ok self
    ∧ default_gateway_reachable self = true
    ∧ google_reachable self = false
    ∧ default_resolver_reachable self = true
    ∧ google_resolvable self = false
    ∧ good self = true && false && true && false
    ∧ (good self = true ↔ true = true ∧ false = true ∧ true = true ∧ false = true).
Proof.
  apply (verdict_is_conjunction (Sample.answering true false true false)
           (default_args Sample.answering_class)
           (default_resolver_default Sample.answering_class) "10.0.0.53");
    reflexivity.
Defined.

(** The same read backwards: every instance that a construction returns
    satisfies the equation, whatever was passed for the five booleans. *)
Lemma verdict_of_any_instance (w : World) (args self : DingResult) :
  outcome (construct w args) = Ok self →
  good self = default_gateway_reachable self && google_reachable self
              && default_resolver_reachable self && google_resolvable self.
Proof.
  intros H. apply construct_inv in H as (r & host & b1 & b2 & b3 & b4 & _ & _ & _ & _ & _ & _ & -> & _).
  cbn. destruct b1, b2, b3, b4; reflexivity.
Qed.

(** Each of the sixteen combinations is the answer of some host. *)
Lemma verdict_sixteen_combinations (a b c d : bool) :
  new_DingResult Sample.answering_class (Sample.answering a b c d)
  = (trace (new_DingResult Sample.answering_class (Sample.answering a b c d)),
     Ok (checked (default_args Sample.answering_class) a b c d))
  ∧ all [a; b; c; d] = a && b && c && d.
Proof. destruct a, b, c, d; split; reflexivity. Qed.

Lemma new_DingResult_fields (cls : DingResultClass) (w : World) (r : DingResult) :
  outcome (new_DingResult cls w) = Ok r →
  interface_name r = interface_name_default cls
  ∧ default_gateway r = default_gateway_default cls
  ∧ default_resolver r = AsObject (default_resolver_default cls).
Proof.
  unfold new_DingResult. intros H.
  apply construct_inv in H as (res & host & b1 & b2 & b3 & b4 & _ & _ & _ & _ & _ & _ & -> & _).
  repeat split.
Qed.

(** ** The entrypoint *)

Lemma execute_run (cls : DingResultClass) (w : World) (t : list event) (r : DingResult) :
  new_DingResult cls w = (t, Ok r) →
  execute cls w =
  (t ++ [Print [Pformat (PInstanceDict
                   (set_default_resolver (AsAttrDict (default_resolver_default cls)) r))]]
     ++ (if good r then [Print [Text "UP"]] else []),
   if good r then Ok () else Raise (SystemExit "DOWN")).
Proof.
  intros H.
  assert (Hres : default_resolver r = AsObject (default_resolver_default cls)).
  { apply (new_DingResult_fields cls w). rewrite H. reflexivity. }
  unfold execute, mbind, M_bind. rewrite H.
  rewrite (print_object_fresh r _ Hres).
  destruct (good r); reflexivity.
Qed.

(** C2.  Once the report is constructed, [execute] prints it on standard
    output, the eight fields in one dict, whatever the verdict.  With a
    false verdict it then exits through [sys.exit("DOWN")]: status 1 and the
    message DOWN.  With a true verdict it prints UP and returns: status 0. *)
Theorem execute_prints_then_exits (cls : DingResultClass) (w : World)
        (t : list event) (r : DingResult) :
  new_DingResult cls w = (t, Ok r) →
  let report :=
    [Pformat (PInstanceDict
       {| interface_name := interface_name r;
          default_gateway := default_gateway r;
          default_resolver := AsAttrDict (default_resolver_default cls);
          default_gateway_reachable := default_gateway_reachable r;
          google_reachable := google_reachable r;
          default_resolver_reachable := default_resolver_reachable r;
          google_resolvable := google_resolvable r;
          good := good r |})] in
  run_process (execute cls w) =
  if good r then
    {| exit_stdout := printed t ++ [report; [Text "UP"]];
       exit_stderr := [];
       exit_status := 0 |}
  else
    {| exit_stdout := printed t ++ [report];
       exit_stderr := [Message "DOWN"];
       exit_status := 1 |}.
Proof.
  intros H report. rewrite (execute_run cls w t r H).
  unfold run_process, set_default_resolver. subst report.
  destruct (good r); rewrite printed_app; reflexivity.
Qed.

Lemma execute_prints_then_exits_witness :
  run_process (execute Sample.answering_class (Sample.answering true false true false)) =
  {| exit_stdout :=
       [ [Text "host="; Repr (PStr "8.8.8.8"); Text " was not reachable..."];
         [Text "nameserver claims that host="; Repr (PStr "google.com");
          Text " does not exist"];
         [Pformat (PInstanceDict
            {| interface_name := "eth0";
               default_gateway := "10.0.0.1";
               default_resolver :=
                 AsAttrDict {| nameservers := ["10.0.0.53"]; port := 53; search := [] |};
               default_gateway_reachable := true;
               google_reachable := false;
               default_resolver_reachable := true;
               google_resolvable := false;
               good := false |})] ];
     exit_stderr := [Message "DOWN"];
     exit_status := 1 |}.
Proof.
  exact (execute_prints_then_exits Sample.answering_class
           (Sample.answering true false true false)
           (trace (new_DingResult Sample.answering_class
                     (Sample.answering true false true false)))
           (checked (default_args Sample.answering_class) true false true false)
           eq_refl).
Defined.

Example execute_on_healthy_host :
  run_process (main Sample.healthy) =
  {| exit_stdout :=
       [ [Pformat (PInstanceDict
            {| interface_name := "eth0";
               default_gateway := "192.168.1.1";
               default_resolver := AsAttrDict Sample.home_resolver;
               default_gateway_reachable := true;
               google_reachable := true;
               default_resolver_reachable := true;
               google_resolvable := true;
               good := true |})];
         [Text "UP"] ];
     exit_stderr := [];
     exit_status := 0 |}.
Proof. reflexivity. Qed.

(** [execute] constructs one report and adds no call of its own. *)
Lemma execute_calls (cls : DingResultClass) (w : World) :
  spawned (trace (execute cls w)) = spawned (trace (new_DingResult cls w))
  ∧ resolved (trace (execute cls w)) = resolved (trace (new_DingResult cls w))
  ∧ discoveries (trace (execute cls w)) = discoveries (trace (new_DingResult cls w)).
Proof.
  destruct (new_DingResult cls w) as [t [r|e]] eqn:H.
  - rewrite (execute_run cls w t r H). unfold trace. cbn.
    rewrite !spawned_app, !resolved_app, !discoveries_app.
    destruct (good r); cbn; rewrite ?app_nil_r; repeat split.
  - unfold execute, mbind, M_bind. rewrite H. repeat split.
Qed.

(** ** The class body and the resolver list *)

Lemma class_body_run (w : World) (addr name : string) :
  gw_default (gateways w) !! AF_INET = Some (addr, name) →
  class_DingResult w =
  ([CallGateways; CallGateways; CallGetDefaultResolver],
   match get_default_resolver w with
   | Ok r => Ok {| interface_name_default := name;
                   default_gateway_default := addr;
                   default_resolver_default := r |}
   | Raise e => Raise e
   end).
Proof.
  intros Hgw. unfold class_DingResult.
  destruct (discovery_with_route w addr name Hgw) as [-> ->]. cbn.
  destruct (get_default_resolver w); reflexivity.
Qed.

Lemma class_body_inv (w : World) (cls : DingResultClass) :
  outcome (class_DingResult w) = Ok cls →
  gw_default (gateways w) !! AF_INET
    = Some (default_gateway_default cls, interface_name_default cls)
  ∧ get_default_resolver w = Ok (default_resolver_default cls)
  ∧ trace (class_DingResult w) = [CallGateways; CallGateways; CallGetDefaultResolver].
Proof.
  destruct (gw_default (gateways w) !! AF_INET) as [[addr name]|] eqn:Hgw.
  - rewrite (class_body_run w addr name Hgw). cbn.
    destruct (get_default_resolver w) as [r|e]; [|discriminate].
    intros [= <-]. repeat split.
  - unfold class_DingResult. rewrite (interface_name_dumps_and_exits w Hgw). discriminate.
Qed.

(** When the library refuses to build a resolver, the run ends in the class
    body and no check has run. *)
Lemma resolver_failure_ends_class_body (w : World) (addr name : string) (e : exn) :
  gw_default (gateways w) !! AF_INET = Some (addr, name) →
  get_default_resolver w = Raise e →
  main w = ([CallGateways; CallGateways; CallGetDefaultResolver], Raise e).
Proof.
  intros Hgw He. unfold main. rewrite (class_body_run w addr name Hgw), He. reflexivity.
Qed.




(** ** When discovery runs *)

(** C6, as stated, fails: a construction makes no discovery call, and the
    report it returns holds what the class body found, not what the host
    says when the report is constructed. *)
Lemma construction_reuses_class_defaults :
  ¬ (∀ (cls : DingResultClass) (w : World) (r : DingResult),
       outcome (new_DingResult cls w) = Ok r →
       discoveries (trace (new_DingResult cls w)) ≠ [])
  ∧ ¬ (∀ (w0 w : World) (cls : DingResultClass) (r : DingResult),
         outcome (class_DingResult w0) = Ok cls →
         outcome (new_DingResult cls w) = Ok r →
         gw_default (gateways w) !! AF_INET = Some (default_gateway r, interface_name r)).
Proof.
  split.
  - intros H.
    apply (H Sample.home_class Sample.healthy
             (checked (default_args Sample.home_class) true true true true)); reflexivity.
  - intros H.
    specialize (H Sample.healthy Sample.moved Sample.home_class
                  (checked (default_args Sample.home_class) true true true true)
                  eq_refl eq_refl).
    vm_compute in H. discriminate.
Qed.

(** C6, amended.  The three discovery lookups run in the class body, once,
    when the module is loaded, and run no check.  Every construction of a
    report takes the three values stored in the class, makes no discovery
    call, and runs the four checks: three pings and one query.  [execute]
    constructs one report and adds no call to those of the construction. *)
Theorem discovery_in_class_body_checks_in_construction
        (w0 w : World) (cls : DingResultClass) (r : DingResult) :
  outcome (class_DingResult w0) = Ok cls →
  outcome (new_DingResult cls w) = Ok r →
  discoveries (trace (class_DingResult w0)) = [CallGateways; CallGateways; CallGetDefaultResolver]
  ∧ spawned (trace (class_DingResult w0)) = []
  ∧ resolved (trace (class_DingResult w0)) = []
  ∧ discoveries (trace (new_DingResult cls w)) = []
  ∧ interface_name r = interface_name_default cls
  ∧ default_gateway r = default_gateway_default cls
  ∧ default_resolver r = AsObject (default_resolver_default cls)
  ∧ (∃ host : string,
       nameservers (default_resolver_default cls) !! 0%nat = Some host
       ∧ spawned (trace (new_DingResult cls w))
         = [ping_request w (default_gateway_default cls);
            ping_request w "8.8.8.8";
            ping_request w host])
  ∧ resolved (trace (new_DingResult cls w)) = ["google.com"]
  ∧ spawned (trace (execute cls w)) = spawned (trace (new_DingResult cls w))
  ∧ resolved (trace (execute cls w)) = resolved (trace (new_DingResult cls w))
  ∧ discoveries (trace (execute cls w)) = [].
Proof.
  intros Hcls Hnew.
  destruct (class_body_inv w0 cls Hcls) as (_ & _ & ->).
  destruct (new_DingResult_fields cls w r Hnew) as (Hn & Hg & Hr).
  destruct (execute_calls cls w) as (Es & Er & Ed).
  pose proof (construct_no_discovery w (default_args cls)) as Hd.
  fold (new_DingResult cls w) in Hd.
  rewrite Es, Er, Ed, Hd.
  do 7 (split; [done|]).
  unfold new_DingResult in *.
  apply construct_inv in Hnew as (res & host & b1 & b2 & b3 & b4 & Hres & Hns & _ & _ & _ & _ & _ & ->).
  cbn in Hres. injection Hres as <-.
  rewrite !spawned_app, !resolved_app, !is_host_reachable_spawned, !is_host_reachable_resolved.
  destruct (is_host_resolvable_calls w "google.com") as (-> & -> & _).
  split; [exists host; split; [exact Hns|reflexivity]|]. repeat split.
Qed.

Lemma discovery_in_class_body_checks_in_construction_witness :
  discoveries (trace (class_DingResult Sample.healthy))
    = [CallGateways; CallGateways; CallGetDefaultResolver]
  ∧ spawned (trace (class_DingResult Sample.healthy)) = []
  ∧ resolved (trace (class_DingResult Sample.healthy)) = []
  ∧ discoveries (trace (new_DingResult Sample.home_class Sample.moved)) = []
  ∧ interface_name (checked (default_args Sample.home_class) true true true true) = "eth0"
  ∧ default_gateway (checked (default_args Sample.home_class) true true true true)
    = "192.168.1.1"
  ∧ default_resolver (checked (default_args Sample.home_class) true true true true)
    = AsObject Sample.home_resolver
  ∧ (∃ host : string,
       nameservers Sample.home_resolver !! 0%nat = Some host
       ∧ spawned (trace (new_DingResult Sample.home_class Sample.moved))
         = [ping_request Sample.moved "192.168.1.1";
            ping_request Sample.moved "8.8.8.8";
            ping_request Sample.moved host])
  ∧ resolved (trace (new_DingResult Sample.home_class Sample.moved)) = ["google.com"]
  ∧ spawned (trace (execute Sample.home_class Sample.moved))
    = spawned (trace (new_DingResult Sample.home_class Sample.moved))
  ∧ resolved (trace (execute Sample.home_class Sample.moved))
    = resolved (trace (new_DingResult Sample.home_class Sample.moved))
  ∧ discoveries (trace (execute Sample.home_class Sample.moved)) = [].
Proof.
  exact (discovery_in_class_body_checks_in_construction
           Sample.healthy Sample.moved Sample.home_class
           (checked (default_args Sample.home_class) true true true true)
           eq_refl eq_refl).
Defined.

(** ** Mutation by rendering *)

(** C9: rendering the report of a healthy host.  [__str__] stores the
    attribute dict of the resolver in [default_resolver], so the field no
    longer holds what construction put there; the seven other fields are
    unchanged; a second rendering raises AttributeError. *)
Theorem str_replaces_default_resolver :
  let report := checked (default_args Sample.home_class) true true true true in
  let rendered := (__str__ report).2.1 in
  outcome (new_DingResult Sample.home_class Sample.healthy) = Ok report
  ∧ default_resolver report = AsObject Sample.home_resolver
  ∧ default_resolver rendered = AsAttrDict Sample.home_resolver
  ∧ default_resolver rendered ≠ default_resolver report
  ∧ rendered ≠ report
  ∧ rendered = set_default_resolver (AsAttrDict Sample.home_resolver) report
  ∧ (__str__ report).2.2
    = Ok [Pformat (PInstanceDict
            (set_default_resolver (AsAttrDict Sample.home_resolver) report))]
  ∧ (__str__ rendered).2.2 = Raise AttributeError.
Proof.
  intros report rendered.
  assert (Hres : default_resolver report = AsObject Sample.home_resolver) by reflexivity.
  assert (Hrun : rendered = set_default_resolver (AsAttrDict Sample.home_resolver) report).
  { unfold rendered. rewrite (str_run report _ Hres). reflexivity. }
  split; [reflexivity|]. split; [exact Hres|].
  split; [rewrite Hrun; reflexivity|].
  split; [rewrite Hrun; discriminate|].
  split; [rewrite Hrun; intros Heq; apply (f_equal default_resolver) in Heq; discriminate|].
  split; [exact Hrun|].
  split; [rewrite (str_run report _ Hres); reflexivity|].
  rewrite Hrun. rewrite (str_again _ Sample.home_resolver); reflexivity.
Qed.

(** The same for every instance that a construction returns. *)
Lemma str_mutates_every_report (w : World) (args report : DingResult) :
  outcome (construct w args) = Ok report →
  default_resolver (__str__ report).2.1 ≠ default_resolver report
  ∧ (__str__ (__str__ report).2.1).2.2 = Raise AttributeError.
Proof.
  intros H.
  apply construct_inv in H as (r & host & b1 & b2 & b3 & b4 & Hres & _ & _ & _ & _ & _ & -> & _).
  assert (Hr : default_resolver (checked args b1 b2 b3 b4) = AsObject r) by exact Hres.
  rewrite (str_run _ r Hr). cbn. split; [rewrite Hres; discriminate|].
  rewrite (str_again _ r); reflexivity.
Qed.

(** * Further properties of the script *)

(** ** [get_interface_ip_address] *)

(** X1.  The address of an interface is the ["addr"] entry of the first dict
    under [AF_INET]; each of the three subscripts can fail on its own, and
    an exception of [netifaces.ifaddresses] is passed on.  Nothing is
    printed in any case. *)
Theorem interface_ip_address_cases (w : World) (interface : string) :
  trace (get_interface_ip_address w interface) = [CallIfaddresses interface]
  ∧ outcome (get_interface_ip_address w interface) =
    match ifaddresses w interface with
    | Raise e => Raise e
    | Ok addrs =>
        match addrs !! AF_INET with
        | None => Raise KeyError
        | Some [] => Raise IndexError
        | Some (first :: _) =>
            match first !! "addr" with
            | None => Raise KeyError
            | Some a => Ok a
            end
        end
    end.
Proof.
  unfold get_interface_ip_address, netifaces_ifaddresses, external, subscript, index,
    trace, outcome.
  destruct (ifaddresses w interface) as [addrs|e]; cbn; [|done].
  destruct (addrs !! AF_INET) as [[|first rest]|]; cbn; [done| |done].
  destruct (first !! "addr"); done.
Qed.

Example interface_ip_address_samples :
  outcome (get_interface_ip_address Sample.two_interfaces "eth0") = Ok "192.168.1.17"
  ∧ outcome (get_interface_ip_address Sample.two_interfaces "tun0") = Raise KeyError
  ∧ outcome (get_interface_ip_address Sample.two_interfaces "wlan9")
    = Raise (OtherError "ValueError").
Proof. repeat split. Qed.

(** ** Discovery *)

(** X2.  The two routing lookups never disagree on whether there is a route:
    each makes one call of [netifaces.gateways()]; with an IPv4 default
    entry the first returns its interface and the second its address, and
    neither prints; without one the first ends in [SystemExit] and the
    second in [KeyError]. *)
Theorem routing_lookups_cases (w : World) :
  discoveries (trace (get_default_gateway w)) = [CallGateways]
  ∧ match gw_default (gateways w) !! AF_INET with
    | Some (addr, name) =>
        get_default_route_interface_name w = ([CallGateways], Ok name)
        ∧ get_default_gateway w = ([CallGateways], Ok addr)
    | None =>
        outcome (get_default_route_interface_name w) = Raise (SystemExit "No default gateway!")
        ∧ discoveries (trace (get_default_route_interface_name w))
          = [CallGateways; CallNetIfStats]
        ∧ get_default_gateway w = ([CallGateways], Raise KeyError)
    end.
Proof.
  destruct (gw_default (gateways w) !! AF_INET) as [[addr name]|] eqn:Hgw.
  - destruct (discovery_with_route w addr name Hgw) as [H1 H2].
    rewrite H1, H2. repeat split.
  - rewrite (interface_name_dumps_and_exits w Hgw), (default_gateway_key_error w Hgw).
    repeat split.
Qed.

(** X3.  A run on a host without an IPv4 default route ends in the class body:
    it prints the three diagnostic lines, exits with status 1 and the
    message "No default gateway!", and has neither asked for the resolver
    nor run any check. *)
Theorem run_without_route (w : World) :
  gw_default (gateways w) !! AF_INET = None →
  run_process (main w) =
  {| exit_stdout :=
       [ [Text "no default gateway in: gateways="; Repr (PGateways (gateways w));
          Text ", internet is probably broken"];
         [Text "network interfaces: "];
         [Pformat (PIfStats (net_if_stats w))] ];
     exit_stderr := [Message "No default gateway!"];
     exit_status := 1 |}
  ∧ discoveries (trace (main w)) = [CallGateways; CallNetIfStats]
  ∧ spawned (trace (main w)) = []
  ∧ resolved (trace (main w)) = [].
Proof.
  intros Hgw.
  assert (Hmain : main w = (trace (get_default_route_interface_name w),
                            Raise (SystemExit "No default gateway!"))).
  { unfold main, class_DingResult, mbind, M_bind.
    rewrite (interface_name_dumps_and_exits w Hgw). reflexivity. }
  rewrite Hmain, (interface_name_dumps_and_exits w Hgw). repeat split.
Qed.

Lemma run_without_route_witness :
  run_process (main Sample.no_route) =
  {| exit_stdout :=
       [ [Text "no default gateway in: gateways="; Repr (PGateways Sample.no_ipv4_gateways);
          Text ", internet is probably broken"];
         [Text "network interfaces: "];
         [Pformat (PIfStats (net_if_stats Sample.no_route))] ];
     exit_stderr := [Message "No default gateway!"];
     exit_status := 1 |}
  ∧ discoveries (trace (main Sample.no_route)) = [CallGateways; CallNetIfStats]
  ∧ spawned (trace (main Sample.no_route)) = []
  ∧ resolved (trace (main Sample.no_route)) = [].
Proof. exact (run_without_route Sample.no_route eq_refl). Defined.

(** X4.  When the DNS library raises instead of returning a resolver, the run
    ends in the class body with that exception: exit status 1, nothing on
    standard output, no check run. *)
Theorem run_without_resolver (w : World) (addr name : string) (e : exn) :
  gw_default (gateways w) !! AF_INET = Some (addr, name) →
  get_default_resolver w = Raise e →
  outcome (main w) = Raise e
  ∧ exit_status (run_process (main w)) = 1
  ∧ exit_stdout (run_process (main w)) = []
  ∧ discoveries (trace (main w)) = [CallGateways; CallGateways; CallGetDefaultResolver]
  ∧ spawned (trace (main w)) = []
  ∧ resolved (trace (main w)) = [].
Proof.
  intros Hgw He.
  assert (Hmain : main w = ([CallGateways; CallGateways; CallGetDefaultResolver], Raise e)).
  { unfold main, mbind, M_bind. rewrite (class_body_run w addr name Hgw), He. reflexivity. }
  rewrite Hmain. unfold run_process. destruct e; repeat split.
Qed.

Lemma run_without_resolver_witness :
  outcome (main Sample.no_resolv_conf) = Raise (OtherError "NoResolverConfiguration")
  ∧ exit_status (run_process (main Sample.no_resolv_conf)) = 1
  ∧ exit_stdout (run_process (main Sample.no_resolv_conf)) = []
  ∧ discoveries (trace (main Sample.no_resolv_conf))
    = [CallGateways; CallGateways; CallGetDefaultResolver]
  ∧ spawned (trace (main Sample.no_resolv_conf)) = []
  ∧ resolved (trace (main Sample.no_resolv_conf)) = [].
Proof.
  exact (run_without_resolver Sample.no_resolv_conf "192.168.1.1" "eth0"
           (OtherError "NoResolverConfiguration") eq_refl eq_refl).
Defined.

(** ** The resolvability checker, seen from outside *)

(** X5.  Every call makes exactly one query, for the host it was given, and
    starts no process.  It prints nothing when the query is answered, one
    line naming the host for NXDOMAIN, another line naming the host for
    NoNameservers, and nothing for an exception it does not handle. *)
Theorem resolvable_one_query (w : World) (host : string) :
  resolved (trace (is_host_resolvable w host)) = [host]
  ∧ spawned (trace (is_host_resolvable w host)) = []
  ∧ printed (trace (is_host_resolvable w host)) =
    match resolve w host with
    | Raise NXDOMAIN =>
        [[Text "nameserver claims that host="; Repr (PStr host); Text " does not exist"]]
    | Raise NoNameservers =>
        [[Text "all nameservers failed to answer for host="; Repr (PStr host)]]
    | _ => []
    end.
Proof.
  rewrite is_host_resolvable_run.
  destruct (resolve w host) as [a|[]]; repeat split.
Qed.

(** ** Construction, on every path *)

(** The trace of a construction, whether it returns or raises, is made of
    the traces of checks and of nothing else. *)
Lemma construct_trace_checks (w : World) (args : DingResult) :
  ∃ ts : list (list event),
    trace (construct w args) = concat ts ∧ Forall (check_trace w) ts.
Proof.
  unfold construct, __init__, __post_init__, trace.
  unfold mbind, Method_bind, getattr, setattr, call, mret, Method_ret. cbn.
  assert (C1 : check_trace w (is_host_reachable w (default_gateway args)).1)
    by (eexists; left; reflexivity).
  assert (C2 : check_trace w (is_host_reachable w "8.8.8.8").1)
    by (eexists; left; reflexivity).
  assert (C4 : check_trace w (is_host_resolvable w "google.com").1)
    by (eexists; right; reflexivity).
  destruct (is_host_reachable w (default_gateway args)) as [t1 [b1|e1]]; cbn in *;
    [|exists [t1]; split; [by cbn; rewrite ?app_nil_r|by repeat constructor]].
  destruct (is_host_reachable w "8.8.8.8") as [t2 [b2|e2]]; cbn in *;
    [|exists [t1; t2]; split; [by cbn; rewrite app_nil_r|by repeat constructor]].
  destruct (default_resolver args) as [r|r]; cbn;
    [|exists [t1; t2]; split; [by cbn; rewrite ?app_nil_r|by repeat constructor]].
  unfold index. destruct (nameservers r !! 0%nat) as [host|]; cbn;
    [|exists [t1; t2]; split; [by cbn; rewrite ?app_nil_r|by repeat constructor]].
  assert (C3 : check_trace w (is_host_reachable w host).1)
    by (eexists; left; reflexivity).
  destruct (is_host_reachable w host) as [t3 [b3|e3]]; cbn in *;
    [|exists [t1; t2; t3]; split;
      [by cbn; rewrite ?app_nil_r, <- ?app_assoc|by repeat constructor]].
  destruct (is_host_resolvable w "google.com") as [t4 [b4|e4]]; cbn in *;
    exists [t1; t2; t3; t4]; (split;
      [by cbn; rewrite ?app_nil_r, <- ?app_assoc|by repeat constructor]).
Qed.

(** What a check prints is a check line. *)
Lemma check_trace_lines (w : World) (t : list event) :
  check_trace w t → Forall (λ l, is_check_line l = true) (printed t).
Proof.
  intros [host [-> | ->]].
  - rewrite is_host_reachable_run.
    destruct (subprocess_call w _) as [rc|e]; cbn; [destruct (rc =? 0)%Z|];
      repeat constructor.
  - rewrite is_host_resolvable_run.
    destruct (resolve w host) as [a|[]]; repeat constructor.
Qed.

Lemma printed_concat_lines (w : World) (ts : list (list event)) :
  Forall (check_trace w) ts →
  Forall (λ l, is_check_line l = true) (printed (concat ts)).
Proof.
  induction 1 as [|t ts Ht _ IH]; cbn.
  - constructor.
  - rewrite printed_app. apply Forall_app. split; [by apply (check_trace_lines w)|exact IH].
Qed.

(** On every path a construction prints only check lines. *)
Lemma construct_prints_check_lines (w : World) (args : DingResult) :
  Forall (λ l, is_check_line l = true) (printed (trace (construct w args))).
Proof.
  destruct (construct_trace_checks w args) as (ts & -> & Hts).
  by apply (printed_concat_lines w).
Qed.

(** X6.  The five booleans passed to the constructor play no part: two calls
    that pass the same interface name, gateway and resolver behave alike,
    trace and result. *)
Theorem construct_ignores_passed_booleans (w : World) (args args' : DingResult) :
  interface_name args = interface_name args' →
  default_gateway args = default_gateway args' →
  default_resolver args = default_resolver args' →
  construct w args = construct w args'.
Proof.
  destruct args as [n g r a b c d v], args' as [n' g' r' a' b' c' d' v']. cbn.
  intros <- <- <-.
  unfold construct, __init__, __post_init__.
  unfold mbind, Method_bind, getattr, setattr, call, mret, Method_ret. cbn.
  destruct (is_host_reachable w g) as [t1 [b1|e1]]; cbn; [|reflexivity].
  destruct (is_host_reachable w "8.8.8.8") as [t2 [b2|e2]]; cbn; [|reflexivity].
  destruct r as [r|r]; cbn; [|reflexivity].
  unfold index. destruct (nameservers r !! 0%nat) as [host|]; cbn; [|reflexivity].
  destruct (is_host_reachable w host) as [t3 [b3|e3]]; cbn; [|reflexivity].
  destruct (is_host_resolvable w "google.com") as [t4 [b4|e4]]; reflexivity.
Qed.

Lemma construct_ignores_passed_booleans_witness :
  construct (Sample.answering true false true false) (default_args Sample.answering_class)
  = construct (Sample.answering true false true false)
      (checked (default_args Sample.answering_class) true true true true).
Proof.
  exact (construct_ignores_passed_booleans (Sample.answering true false true false)
           (default_args Sample.answering_class)
           (checked (default_args Sample.answering_class) true true true true)
           eq_refl eq_refl eq_refl).
Defined.

(** X7.  A failed check does not stop the others.  Whatever the three pings
    answer, the construction goes on to the next check: it pings the
    gateway, 8.8.8.8 and the first nameserver, in this order, then makes
    the one query for google.com; and it prints one line for each ping
    that failed, in the same order, before what the query check prints. *)
Theorem construct_runs_all_checks (w : World) (args : DingResult) (r : Resolver)
        (host : string) (b1 b2 b3 b4 : bool) :
  default_resolver args = AsObject r →
  nameservers r !! 0%nat = Some host →
  outcome (is_host_reachable w (default_gateway args)) = Ok b1 →
  outcome (is_host_reachable w "8.8.8.8") = Ok b2 →
  outcome (is_host_reachable w host) = Ok b3 →
  outcome (is_host_resolvable w "google.com") = Ok b4 →
  spawned (trace (construct w args))
  = [ping_request w (default_gateway args); ping_request w "8.8.8.8"; ping_request w host]
  ∧ resolved (trace (construct w args)) = ["google.com"]
  ∧ printed (trace (construct w args))
    = (if b1 then []
       else [[Text "host="; Repr (PStr (default_gateway args)); Text " was not reachable..."]])
      ++ (if b2 then []
          else [[Text "host="; Repr (PStr "8.8.8.8"); Text " was not reachable..."]])
      ++ (if b3 then []
          else [[Text "host="; Repr (PStr host); Text " was not reachable..."]])
      ++ printed (trace (is_host_resolvable w "google.com")).
Proof.
  intros Hres Hns H1 H2 H3 H4.
  assert (Htr : trace (construct w args) =
                 trace (is_host_reachable w (default_gateway args))
                 ++ trace (is_host_reachable w "8.8.8.8")
                 ++ trace (is_host_reachable w host)
                 ++ trace (is_host_resolvable w "google.com"))
    by (rewrite (construct_run w args r host b1 b2 b3 b4 Hres Hns H1 H2 H3 H4); reflexivity).
  rewrite Htr.
  rewrite !spawned_app, !resolved_app, !printed_app.
  rewrite !is_host_reachable_spawned, !is_host_reachable_resolved.
  rewrite (is_host_reachable_printed _ _ _ H1), (is_host_reachable_printed _ _ _ H2),
    (is_host_reachable_printed _ _ _ H3).
  destruct (is_host_resolvable_calls w "google.com") as (-> & -> & _).
  repeat split.
Qed.

Lemma construct_runs_all_checks_witness :
  spawned (trace (construct (Sample.answering false false true false)
                            (default_args Sample.answering_class)))
  = [ping_request (Sample.answering false false true false) "10.0.0.1";
     ping_request (Sample.answering false false true false) "8.8.8.8";
     ping_request (Sample.answering false false true false) "10.0.0.53"]
  ∧ resolved (trace (construct (Sample.answering false false true false)
                               (default_args Sample.answering_class))) = ["google.com"]
  ∧ printed (trace (construct (Sample.answering false false true false)
                              (default_args Sample.answering_class)))
    = [[Text "host="; Repr (PStr "10.0.0.1"); Text " was not reachable..."]]
      ++ [[Text "host="; Repr (PStr "8.8.8.8"); Text " was not reachable..."]]
      ++ []
      ++ printed (trace (is_host_resolvable (Sample.answering false false true false)
                           "google.com")).
Proof.
  exact (construct_runs_all_checks (Sample.answering false false true false)
           (default_args Sample.answering_class)
           (default_resolver_default Sample.answering_class) "10.0.0.53"
           false false true false eq_refl eq_refl eq_refl eq_refl eq_refl eq_refl).
Defined.

(** The construction once the three pings have returned: it returns or
    raises as the query check does. *)
Lemma construct_after_pings (w : World) (args : DingResult) (r : Resolver) (host : string)
      (b1 b2 b3 : bool) :
  default_resolver args = AsObject r →
  nameservers r !! 0%nat = Some host →
  outcome (is_host_reachable w (default_gateway args)) = Ok b1 →
  outcome (is_host_reachable w "8.8.8.8") = Ok b2 →
  outcome (is_host_reachable w host) = Ok b3 →
  construct w args =
  (trace (is_host_reachable w (default_gateway args))
   ++ trace (is_host_reachable w "8.8.8.8")
   ++ trace (is_host_reachable w host)
   ++ trace (is_host_resolvable w "google.com"),
   match outcome (is_host_resolvable w "google.com") with
   | Ok b4 => Ok (checked args b1 b2 b3 b4)
   | Raise e => Raise e
   end).
Proof.
  intros Hres Hns H1 H2 H3.
  destruct (outcome (is_host_resolvable w "google.com")) as [b4|e] eqn:H4.
  - exact (construct_run w args r host b1 b2 b3 b4 Hres Hns H1 H2 H3 H4).
  - revert H1 H2 H3 H4.
    unfold construct, __init__, __post_init__, outcome, trace.
    unfold mbind, Method_bind, getattr, setattr, call, mret, Method_ret. cbn.
    intros H1 H2 H3 H4.
    destruct (is_host_reachable w (default_gateway args)) as [t1 o1]; cbn in *; subst o1.
    destruct (is_host_reachable w "8.8.8.8") as [t2 o2]; cbn in *; subst o2.
    rewrite Hres. cbn. unfold index. rewrite Hns. cbn.
    destruct (is_host_reachable w host) as [t3 o3]; cbn in *; subst o3.
    destruct (is_host_resolvable w "google.com") as [t4 o4]; cbn in *; subst o4.
    cbn. rewrite ?app_nil_r, <- ?app_assoc. reflexivity.
Qed.

(** The run of the script once the class body has its three values. *)
Lemma main_with_class (w : World) (addr name : string) (r : Resolver) :
  gw_default (gateways w) !! AF_INET = Some (addr, name) →
  get_default_resolver w = Ok r →
  let cls := {| interface_name_default := name;
                default_gateway_default := addr;
                default_resolver_default := r |} in
  main w = ([CallGateways; CallGateways; CallGetDefaultResolver] ++ trace (execute cls w),
            outcome (execute cls w)).
Proof.
  intros Hgw Hr cls. unfold main, mbind, M_bind.
  rewrite (class_body_run w addr name Hgw), Hr. fold cls.
  destruct (execute cls w); reflexivity.
Qed.

Lemma execute_raises (cls : DingResultClass) (w : World) (t : list event) (e : exn) :
  new_DingResult cls w = (t, Raise e) → execute cls w = (t, Raise e).
Proof. intros H. unfold execute, mbind, M_bind. rewrite H. reflexivity. Qed.

(** ** Exceptions of the checks *)

(** X8.  A failure of the query that [is_host_resolvable] does not handle is
    not turned into a verdict.  The three pings have run and printed their
    lines; then the run ends with that exception and exit status 1, and
    neither the report nor UP is printed. *)
Theorem run_crashes_on_unhandled_query_failure (w : World) (addr name : string)
        (r : Resolver) (host : string) (b1 b2 b3 : bool) (e : exn) :
  gw_default (gateways w) !! AF_INET = Some (addr, name) →
  get_default_resolver w = Ok r →
  nameservers r !! 0%nat = Some host →
  outcome (is_host_reachable w addr) = Ok b1 →
  outcome (is_host_reachable w "8.8.8.8") = Ok b2 →
  outcome (is_host_reachable w host) = Ok b3 →
  resolve w "google.com" = Raise e →
  e ≠ NXDOMAIN → e ≠ NoNameservers →
  outcome (main w) = Raise e
  ∧ exit_status (run_process (main w)) = 1
  ∧ exit_stdout (run_process (main w))
    = (if b1 then [] else [[Text "host="; Repr (PStr addr); Text " was not reachable..."]])
      ++ (if b2 then []
          else [[Text "host="; Repr (PStr "8.8.8.8"); Text " was not reachable..."]])
      ++ (if b3 then [] else [[Text "host="; Repr (PStr host); Text " was not reachable..."]]).
Proof.
  intros Hgw Hr Hns H1 H2 H3 He Hn1 Hn2.
  pose proof (main_with_class w addr name r Hgw Hr) as Hmain. cbn zeta in Hmain.
  set (cls := {| interface_name_default := name; default_gateway_default := addr;
                 default_resolver_default := r |}) in *.
  pose proof (construct_after_pings w (default_args cls) r host b1 b2 b3
                eq_refl Hns H1 H2 H3) as Hc.
  change (default_gateway (default_args cls)) with addr in Hc.
  assert (Hq : is_host_resolvable w "google.com" = ([CallResolve "google.com"], Raise e)).
  { rewrite is_host_resolvable_run, He. destruct e; try reflexivity; contradiction. }
  rewrite Hq in Hc. cbn [outcome trace fst snd] in Hc.
  rewrite (execute_raises cls w _ e Hc) in Hmain.
  assert (Hout : printed (trace (main w)) =
    (if b1 then [] else [[Text "host="; Repr (PStr addr); Text " was not reachable..."]])
    ++ (if b2 then []
        else [[Text "host="; Repr (PStr "8.8.8.8"); Text " was not reachable..."]])
    ++ (if b3 then [] else [[Text "host="; Repr (PStr host); Text " was not reachable..."]])).
  { rewrite Hmain. unfold trace at 1 2. cbn [fst].
    rewrite (printed_app [_; _; _]), !printed_app.
    rewrite (is_host_reachable_printed _ _ _ H1), (is_host_reachable_printed _ _ _ H2),
      (is_host_reachable_printed _ _ _ H3).
    change (printed [CallGateways; CallGateways; CallGetDefaultResolver]) with (@nil text).
    change (printed [CallResolve "google.com"]) with (@nil text).
    rewrite app_nil_r. reflexivity. }
  assert (Hres : outcome (main w) = Raise e) by (rewrite Hmain; reflexivity).
  unfold outcome, trace in *.
  destruct (main w) as [t o]. cbn in Hres, Hout. subst o.
  split; [reflexivity|]. unfold run_process.
  destruct e; cbn; split; try reflexivity; exact Hout.
Qed.

Lemma run_crashes_on_unhandled_query_failure_witness :
  outcome (main Sample.dns_timeout) = Raise (OtherError "LifetimeTimeout")
  ∧ exit_status (run_process (main Sample.dns_timeout)) = 1
  ∧ exit_stdout (run_process (main Sample.dns_timeout)) = [].
Proof.
  refine (run_crashes_on_unhandled_query_failure Sample.dns_timeout
            "192.168.1.1" "eth0" Sample.home_resolver "192.168.1.1" true true true
            (OtherError "LifetimeTimeout")
            eq_refl eq_refl eq_refl eq_refl eq_refl eq_refl eq_refl _ _);
    discriminate.
Defined.

(** X9.  When the ping child cannot be started for the gateway, the run ends at
    the first check with the exception of [subprocess.call]: one spawn was
    attempted, no other check ran, nothing was printed, exit status 1. *)
Theorem run_crashes_when_ping_cannot_start (w : World) (addr name : string)
        (r : Resolver) (e : exn) :
  gw_default (gateways w) !! AF_INET = Some (addr, name) →
  get_default_resolver w = Ok r →
  subprocess_call w (ping_request w addr) = Raise e →
  outcome (main w) = Raise e
  ∧ spawned (trace (main w)) = [ping_request w addr]
  ∧ resolved (trace (main w)) = []
  ∧ exit_stdout (run_process (main w)) = []
  ∧ exit_status (run_process (main w)) = 1.
Proof.
  intros Hgw Hr He.
  pose proof (main_with_class w addr name r Hgw Hr) as Hmain. cbn zeta in Hmain.
  set (cls := {| interface_name_default := name; default_gateway_default := addr;
                 default_resolver_default := r |}) in *.
  assert (Hp : is_host_reachable w addr
               = ([CallPlatformSystem; CallSubprocess (ping_request w addr)], Raise e))
    by (rewrite is_host_reachable_run, He; reflexivity).
  assert (Hc : new_DingResult cls w
               = ([CallPlatformSystem; CallSubprocess (ping_request w addr)], Raise e)).
  { unfold new_DingResult, construct, __init__, __post_init__.
    unfold mbind, Method_bind, getattr, setattr, call, mret, Method_ret. cbn.
    rewrite Hp. reflexivity. }
  rewrite (execute_raises cls w _ e Hc) in Hmain. rewrite Hmain.
  unfold run_process, outcome, trace. cbn [fst snd app].
  destruct e; repeat split.
Qed.

Lemma run_crashes_when_ping_cannot_start_witness :
  outcome (main Sample.no_ping) = Raise (OtherError "FileNotFoundError")
  ∧ spawned (trace (main Sample.no_ping)) = [ping_request Sample.no_ping "192.168.1.1"]
  ∧ resolved (trace (main Sample.no_ping)) = []
  ∧ exit_stdout (run_process (main Sample.no_ping)) = []
  ∧ exit_status (run_process (main Sample.no_ping)) = 1.
Proof.
  exact (run_crashes_when_ping_cannot_start Sample.no_ping "192.168.1.1" "eth0"
           Sample.home_resolver (OtherError "FileNotFoundError") eq_refl eq_refl eq_refl).
Defined.

(** ** Rendering and the outside *)

(** X10.  [__str__] talks to nobody and touches one attribute: its trace is
    empty, and the interface name, the gateway, the four check results and
    the verdict are after the call what they were before it, whether it
    returns or raises. *)
Theorem rendering_keeps_checks_and_verdict (self : DingResult) :
  (__str__ self).1 = []
  ∧ interface_name (__str__ self).2.1 = interface_name self
  ∧ default_gateway (__str__ self).2.1 = default_gateway self
  ∧ default_gateway_reachable (__str__ self).2.1 = default_gateway_reachable self
  ∧ google_reachable (__str__ self).2.1 = google_reachable self
  ∧ default_resolver_reachable (__str__ self).2.1 = default_resolver_reachable self
  ∧ google_resolvable (__str__ self).2.1 = google_resolvable self
  ∧ good (__str__ self).2.1 = good self.
Proof.
  destruct (default_resolver self) as [r|r] eqn:Hres.
  - rewrite (str_run self r Hres). repeat split.
  - rewrite (str_again self r Hres). repeat split.
Qed.

(** ** A whole run *)

(** X11.  With a default route, a resolver that has a first nameserver and four
    checks that return, the run ends with exit status 0 when all four
    answers are [true] and with 1 otherwise.  Standard output holds the
    lines of the failed checks, then the report with the discovered values
    and the four answers, then UP in the first case; standard error holds
    DOWN in the second. *)
Theorem run_reports_and_exits (w : World) (addr name : string) (r : Resolver)
        (host : string) (b1 b2 b3 b4 : bool) :
  gw_default (gateways w) !! AF_INET = Some (addr, name) →
  get_default_resolver w = Ok r →
  nameservers r !! 0%nat = Some host →
  outcome (is_host_reachable w addr) = Ok b1 →
  outcome (is_host_reachable w "8.8.8.8") = Ok b2 →
  outcome (is_host_reachable w host) = Ok b3 →
  outcome (is_host_resolvable w "google.com") = Ok b4 →
  let cls := {| interface_name_default := name;
                default_gateway_default := addr;
                default_resolver_default := r |} in
  let report :=
    [Pformat (PInstanceDict
       {| interface_name := name;
          default_gateway := addr;
          default_resolver := AsAttrDict r;
          default_gateway_reachable := b1;
          google_reachable := b2;
          default_resolver_reachable := b3;
          google_resolvable := b4;
          good := b1 && b2 && b3 && b4 |})] in
  run_process (main w) =
  if b1 && b2 && b3 && b4 then
    {| exit_stdout := printed (trace (new_DingResult cls w)) ++ [report; [Text "UP"]];
       exit_stderr := [];
       exit_status := 0 |}
  else
    {| exit_stdout := printed (trace (new_DingResult cls w)) ++ [report];
       exit_stderr := [Message "DOWN"];
       exit_status := 1 |}.
Proof.
  intros Hgw Hr Hns H1 H2 H3 H4 cls report.
  pose proof (main_with_class w addr name r Hgw Hr) as Hmain. cbn zeta in Hmain.
  fold cls in Hmain.
  pose proof (construct_run w (default_args cls) r host b1 b2 b3 b4
                eq_refl Hns H1 H2 H3 H4) as Hc.
  fold (new_DingResult cls w) in Hc.
  assert (Ht : trace (new_DingResult cls w) = (new_DingResult cls w).1) by reflexivity.
  rewrite Hc in Ht at 2. cbn [fst] in Ht. rewrite <- Ht in Hc.
  rewrite (execute_run cls w _ _ Hc) in Hmain. rewrite Hmain.
  unfold outcome, trace at 1 3. cbn [fst snd].
  assert (Hall : good (checked (default_args cls) b1 b2 b3 b4) = b1 && b2 && b3 && b4)
    by (destruct b1, b2, b3, b4; reflexivity).
  rewrite Hall. unfold run_process.
  destruct (b1 && b2 && b3 && b4) eqn:Hb;
    rewrite (printed_app [_; _; _]), printed_app;
    unfold report, checked, set_default_resolver; cbn [good]; fold (all [b1; b2; b3; b4]);
    change (all [b1; b2; b3; b4]) with (b1 && (b2 && (b3 && (b4 && true))));
    replace (b1 && (b2 && (b3 && (b4 && true)))) with (b1 && b2 && b3 && b4)
      by (destruct b1, b2, b3, b4; reflexivity);
    rewrite Hb; reflexivity.
Qed.

Lemma run_reports_and_exits_witness :
  run_process (main (Sample.answering true true false true)) =
  {| exit_stdout :=
       printed (trace (new_DingResult Sample.answering_class
                         (Sample.answering true true false true)))
       ++ [[Pformat (PInstanceDict
              {| interface_name := "eth0";
                 default_gateway := "10.0.0.1";
                 default_resolver :=
                   AsAttrDict {| nameservers := ["10.0.0.53"]; port := 53; search := [] |};
                 default_gateway_reachable := true;
                 google_reachable := true;
                 default_resolver_reachable := false;
                 google_resolvable := true;
                 good := false |})]];
     exit_stderr := [Message "DOWN"];
     exit_status := 1 |}.
Proof.
  exact (run_reports_and_exits (Sample.answering true true false true)
           "10.0.0.1" "eth0" {| nameservers := ["10.0.0.53"]; port := 53; search := [] |}
           "10.0.0.53" true true false true
           eq_refl eq_refl eq_refl eq_refl eq_refl eq_refl eq_refl).
Defined.

Lemma check_lines_not_up (ls : list text) :
  Forall (λ l, is_check_line l = true) ls → [Text "UP"] ∉ ls.
Proof.
  intros H Hin. rewrite Forall_forall in H. specialize (H _ Hin). discriminate.
Qed.

(** Every run is of one of two kinds: it raises, and UP is not on its
    standard output; or the class body and the construction returned, the
    verdict is [true], and the run returns after printing the report and UP. *)
Lemma main_cases (w : World) :
  (∃ (t : list event) (e : exn), main w = (t, Raise e) ∧ [Text "UP"] ∉ printed t)
  ∨ (∃ (cls : DingResultClass) (t : list event) (r : DingResult) (report : text),
       outcome (class_DingResult w) = Ok cls
       ∧ new_DingResult cls w = (t, Ok r)
       ∧ good r = true
       ∧ main w = ([CallGateways; CallGateways; CallGetDefaultResolver]
                     ++ t ++ [Print report; Print [Text "UP"]], Ok ())).
Proof.
  destruct (gw_default (gateways w) !! AF_INET) as [[addr name]|] eqn:Hgw.
  2: { left. eexists _, _. split.
       - unfold main, class_DingResult, mbind, M_bind.
         rewrite (interface_name_dumps_and_exits w Hgw). reflexivity.
       - intros Hin. cbv [printed omap list_omap] in Hin.
         repeat (apply elem_of_cons in Hin as [Hin|Hin]; [discriminate|]).
         by apply elem_of_nil in Hin. }
  destruct (get_default_resolver w) as [r|e] eqn:Hr.
  2: { left. exists [CallGateways; CallGateways; CallGetDefaultResolver], e. split.
       - unfold main, mbind, M_bind. rewrite (class_body_run w addr name Hgw), Hr. reflexivity.
       - intros Hin. by apply elem_of_nil in Hin. }
  pose proof (main_with_class w addr name r Hgw Hr) as Hmain. cbn zeta in Hmain.
  set (cls := {| interface_name_default := name; default_gateway_default := addr;
                 default_resolver_default := r |}) in *.
  pose proof (construct_prints_check_lines w (default_args cls)) as Hlines.
  fold (new_DingResult cls w) in Hlines.
  assert (Hcls : outcome (class_DingResult w) = Ok cls)
    by (rewrite (class_body_run w addr name Hgw), Hr; reflexivity).
  destruct (new_DingResult cls w) as [t [r'|e]] eqn:Hnew; unfold trace in Hlines; cbn in Hlines.
  - rewrite (execute_run cls w t r' Hnew) in Hmain.
    destruct (good r') eqn:Hgood.
    + right. eexists cls, t, r', _.
      split; [exact Hcls|]. split; [exact Hnew|]. split; [exact Hgood|].
      rewrite Hmain. reflexivity.
    + left. eexists _, _. split; [exact Hmain|].
      unfold trace. cbn [fst]. rewrite (printed_app [_; _; _]), !printed_app.
      intros Hin. apply elem_of_app in Hin as [Hin|Hin]; [by apply elem_of_nil in Hin|].
      apply elem_of_app in Hin as [Hin|Hin]; [by apply (check_lines_not_up _ Hlines)|].
      apply elem_of_app in Hin as [Hin|Hin].
      * apply list_elem_of_singleton in Hin. discriminate.
      * by apply elem_of_nil in Hin.
  - rewrite (execute_raises cls w t e Hnew) in Hmain.
    left. eexists _, _. split; [exact Hmain|].
    unfold trace. cbn [fst]. rewrite (printed_app [_; _; _]).
    intros Hin. apply elem_of_app in Hin as [Hin|Hin]; [by apply elem_of_nil in Hin|].
    by apply (check_lines_not_up _ Hlines).
Qed.


(** X13.  Exit status 0 is earned: the host has an IPv4 default route, the DNS
    library returned a resolver with a first nameserver, and each of the
    four checks returned [true]. *)
Theorem exit_status_zero_means_all_passed (w : World) :
  exit_status (run_process (main w)) = 0 →
  ∃ (addr name : string) (r : Resolver) (host : string),
    gw_default (gateways w) !! AF_INET = Some (addr, name)
    ∧ get_default_resolver w = Ok r
    ∧ nameservers r !! 0%nat = Some host
    ∧ outcome (is_host_reachable w addr) = Ok true
    ∧ outcome (is_host_reachable w "8.8.8.8") = Ok true
    ∧ outcome (is_host_reachable w host) = Ok true
    ∧ outcome (is_host_resolvable w "google.com") = Ok true.
Proof.
  destruct (main_cases w) as [(t & e & -> & _)|(cls & t & r & report & Hcls & Hnew & Hgood & _)].
  { destruct e; discriminate. }
  intros _.
  destruct (class_body_inv w cls Hcls) as (Hgw & Hr & _).
  assert (Ho : outcome (construct w (default_args cls)) = Ok r)
    by (unfold new_DingResult in Hnew; rewrite Hnew; reflexivity).
  apply construct_inv in Ho
    as (res & host & b1 & b2 & b3 & b4 & Hres & Hns & H1 & H2 & H3 & H4 & -> & _).
  cbn in Hres. injection Hres as <-.
  exists (default_gateway_default cls), (interface_name_default cls),
    (default_resolver_default cls), host.
  cbn in Hgood, H1.
  destruct b1, b2, b3, b4; try discriminate Hgood.
  repeat split; assumption.
Qed.

Lemma exit_status_zero_means_all_passed_witness :
  ∃ (addr name : string) (r : Resolver) (host : string),
    gw_default (gateways Sample.healthy) !! AF_INET = Some (addr, name)
    ∧ get_default_resolver Sample.healthy = Ok r
    ∧ nameservers r !! 0%nat = Some host
    ∧ outcome (is_host_reachable Sample.healthy addr) = Ok true
    ∧ outcome (is_host_reachable Sample.healthy "8.8.8.8") = Ok true
    ∧ outcome (is_host_reachable Sample.healthy host) = Ok true
    ∧ outcome (is_host_resolvable Sample.healthy "google.com") = Ok true.
Proof. exact (exit_status_zero_means_all_passed Sample.healthy eq_refl). Defined.
